(** * Reverse proxy / static host ([server.js]) and the browser client's
    session handling ([ApiService]): a shallow embedding and its properties.

    JavaScript strings are modelled as [string]; every pattern the code
    matches against is ASCII and every string operation used
    ([includes], [startsWith], [endsWith], an anchored [replace]) compares
    code units one by one, so the alphabet does not matter.  Header bags and
    [localStorage] are finite maps from names to values.  What lies outside
    the code (the upstream controller, the build directory, the clock, the
    browser's network) is an explicit environment the functions take.
    [console.log] and [console.error] write no state the code reads and are
    left out. *)

From Stdlib Require Import String Ascii Bool List ZArith Lia DecimalString.
From stdpp Require Import base option gmap strings.

Open Scope string_scope.

(** ** JavaScript string primitives *)

Module JsString.

(** [s.startsWith(pre)] *)
Fixpoint startsWith (pre s : string) : bool :=
  match pre with
  | EmptyString => true
  | String a pre' =>
      match s with
      | EmptyString => false
      | String b s' => if Ascii.eqb a b then startsWith pre' s' else false
      end
  end.

(** [s.includes(sub)]: [sub] occurs at some offset of [s]. *)
Fixpoint includes (sub s : string) : bool :=
  startsWith sub s ||
  match s with
  | EmptyString => false
  | String _ s' => includes sub s'
  end.

(** [s.endsWith(suf)]: some tail of [s] is [suf]. *)
Fixpoint endsWith (suf s : string) : bool :=
  String.eqb s suf ||
  match s with
  | EmptyString => false
  | String _ s' => endsWith suf s'
  end.

(** [s.slice(n)] for [0 <= n]. *)
Fixpoint drop (n : nat) (s : string) : string :=
  match n, s with
  | O, _ => s
  | S _, EmptyString => EmptyString
  | S n', String _ s' => drop n' s'
  end.

(** [s.replace(/^lit/, repl)] for a regular expression that is the
    start anchor followed by the literal [lit], and a replacement [repl]
    without [$] patterns: the first (and only possible) match is the
    prefix [lit]. *)
Definition replace_anchored (lit repl s : string) : string :=
  if startsWith lit s then String.append repl (drop (String.length lit) s) else s.

(** [s.match(/\.(e1|e2|...)$/)] is truthy: without the [m] flag [$] is
    the end of input, so the match is a suffix [.ei]. *)
Definition matches_extension (exts : list string) (s : string) : bool :=
  existsb (fun e => endsWith (String.append "." e) s) exts.

(** [s.toLowerCase()] on the ASCII letters. *)
Definition lower_ascii (c : ascii) : ascii :=
  let n := N_of_ascii c in
  if (65 <=? n)%N && (n <=? 90)%N then ascii_of_N (n + 32) else c.

Fixpoint toLowerCase (s : string) : string :=
  match s with
  | EmptyString => EmptyString
  | String c s' => String (lower_ascii c) (toLowerCase s')
  end.

(** A string is truthy unless it is empty. *)
Definition truthy (s : string) : bool := negb (String.eqb s "").

(** Truthiness of a string that may be missing ([null], [undefined]). *)
Definition truthy_opt (v : option string) : bool :=
  match v with
  | Some t => truthy t
  | None => false
  end.

(** White space as [trim] and the [\s] of a regular expression see it,
    among the code units a [string] holds: tab, line feed, vertical tab,
    form feed, carriage return, space and no-break space. *)
Definition is_space (c : ascii) : bool :=
  let n := N_of_ascii c in
  ((9 <=? n)%N && (n <=? 13)%N) || (n =? 32)%N || (n =? 160)%N.

Fixpoint trimStart (s : string) : string :=
  match s with
  | EmptyString => EmptyString
  | String c s' => if is_space c then trimStart s' else s
  end.

Fixpoint trimEnd (s : string) : string :=
  match s with
  | EmptyString => EmptyString
  | String c s' =>
      match trimEnd s' with
      | EmptyString => if is_space c then EmptyString else String c EmptyString
      | t => String c t
      end
  end.

(** [s.trim()] *)
Definition trim (s : string) : string := trimEnd (trimStart s).

(** [s.split(c)] for a separator of one code unit. *)
Fixpoint split (c : ascii) (s : string) : list string :=
  match s with
  | EmptyString => [EmptyString]
  | String a s' =>
      if Ascii.eqb a c then EmptyString :: split c s'
      else match split c s' with
           | item :: items => String a item :: items
           | [] => [String a EmptyString]
           end
  end.

(** Every code unit of [s] passes the test [p]. *)
Fixpoint every (p : ascii -> bool) (s : string) : bool :=
  match s with
  | EmptyString => true
  | String c s' => p c && every p s'
  end.

(** The value of a hexadecimal digit. *)
Definition hex_digit (c : ascii) : option N :=
  let n := N_of_ascii c in
  if (48 <=? n)%N && (n <=? 57)%N then Some (n - 48)%N
  else if (65 <=? n)%N && (n <=? 70)%N then Some (n - 55)%N
  else if (97 <=? n)%N && (n <=? 102)%N then Some (n - 87)%N
  else None.

(** The first byte of a UTF-8 encoded character: how many bytes follow it,
    and the bounds of the byte that follows next (they keep out the
    encodings that are too long, the surrogates and what lies beyond
    U+10FFFF).  A byte that starts no character has no entry. *)
Definition utf8_lead (b : N) : option (nat * N * N) :=
  if (b <? 128)%N then Some (0%nat, 128%N, 191%N)
  else if (194 <=? b)%N && (b <=? 223)%N then Some (1%nat, 128%N, 191%N)
  else if (b =? 224)%N then Some (2%nat, 160%N, 191%N)
  else if (b =? 237)%N then Some (2%nat, 128%N, 159%N)
  else if (225 <=? b)%N && (b <=? 239)%N then Some (2%nat, 128%N, 191%N)
  else if (b =? 240)%N then Some (3%nat, 144%N, 191%N)
  else if (241 <=? b)%N && (b <=? 243)%N then Some (3%nat, 128%N, 191%N)
  else if (b =? 244)%N then Some (3%nat, 128%N, 143%N)
  else None.

(** [decodeURIComponent(s)] returns a string rather than throwing a
    [URIError]: every [%] is followed by two hexadecimal digits, and the
    bytes so written are UTF-8.  [more] bytes of the character being read
    are still to come, each written as an escape of its own, and the next of
    them lies between [lo] and [hi]. *)
Fixpoint decodes_from (more : nat) (lo hi : N) (s : string) : bool :=
  match s with
  | EmptyString => Nat.eqb more 0
  | String c s1 =>
      if Ascii.eqb c "%" then
        match s1 with
        | String x (String y rest) =>
            match hex_digit x, hex_digit y with
            | Some a, Some b =>
                let byte := (16 * a + b)%N in
                match more with
                | O =>
                    match utf8_lead byte with
                    | Some (n, lo', hi') => decodes_from n lo' hi' rest
                    | None => false
                    end
                | S more' =>
                    (lo <=? byte)%N && (byte <=? hi)%N &&
                    decodes_from more' 128%N 191%N rest
                end
            | _, _ => false
            end
        | _ => false
        end
      else
        match more with
        | O => decodes_from 0 lo hi s1
        | S _ => false
        end
  end.

Definition decodable (s : string) : bool := decodes_from 0 128%N 191%N s.

(** The three tests in words: [sub] occurs in [s], [s] starts with [pre],
    [s] ends in [suf]. *)
Definition contains (sub s : string) : Prop :=
  exists a b, s = String.append a (String.append sub b).

Definition begins_with (pre s : string) : Prop :=
  exists r, s = String.append pre r.

Definition ends_with (suf s : string) : Prop :=
  exists a, s = String.append a suf.

End JsString.

(** ** HTTP data shared by the server and the client *)

Module Http.
Import JsString.

(** The methods of the contract (and of the [cors] configuration). *)
Inductive method := GET | POST | PUT | DELETE | PATCH | OPTIONS.

Definition method_eqb (a b : method) : bool :=
  match a, b with
  | GET, GET | POST, POST | PUT, PUT | DELETE, DELETE
  | PATCH, PATCH | OPTIONS, OPTIONS => true
  | _, _ => false
  end.

(** The JSON values the server writes: strings and objects. *)
#[local] Unset Elimination Schemes.
Inductive json :=
| JString (s : string)
| JObject (fields : list (string * json)).
#[local] Set Elimination Schemes.

(** A plain JavaScript object with string values; properties keep their
    insertion order, which is the order [Object.keys] lists them in. *)
Definition obj := list (string * string).

(** [o[k]] *)
Fixpoint obj_get {A} (k : string) (o : list (string * A)) : option A :=
  match o with
  | [] => None
  | (k', v) :: o' => if String.eqb k' k then Some v else obj_get k o'
  end.

(** [o[k] = v]: an existing property keeps its place, a new one goes last. *)
Fixpoint obj_set (k v : string) (o : obj) : obj :=
  match o with
  | [] => [(k, v)]
  | (k', v') :: o' =>
      if String.eqb k' k then (k', v) :: o' else (k', v') :: obj_set k v o'
  end.

(** The names Node gives the headers of a message it has read. *)
Definition lowercase_keys (o : obj) : Prop :=
  Forall (fun kv => toLowerCase kv.1 = kv.1) o.

(** An object has each of its properties once. *)
Definition distinct_keys (o : obj) : Prop := NoDup (map fst o).

(** [j.k] of a JSON object. *)
Definition field (k : string) (j : json) : option json :=
  match j with
  | JObject fs => obj_get k fs
  | JString _ => None
  end.

(** Node keeps the headers of a message it writes ([ServerResponse],
    [ClientRequest]) under the lower-cased name, and hands the headers of a
    message it read ([req.headers]) out under lower-cased names too. *)
Definition setHeader (name value : string) (h : gmap string string)
  : gmap string string :=
  <[toLowerCase name := value]> h.

Definition getHeader (name : string) (h : gmap string string) : option string :=
  h !! toLowerCase name.

(** The request object a handler is given: [req.method], [req.originalUrl]
    (the request target as it came in), [req.url] (the same, until a mount
    point or a middleware changes it) and [req.headers].  The requests
    modelled are HTTP/1.1 requests. *)
Record request := {
  req_method : method;
  req_originalUrl : string;
  req_url : string;
  req_headers : gmap string string
}.

(** The request object Express makes of an inbound request. *)
Definition incoming (m : method) (url : string) (hs : gmap string string)
  : request :=
  {| req_method := m; req_originalUrl := url; req_url := url; req_headers := hs |}.

Definition with_url (url : string) (req : request) : request :=
  {| req_method := req_method req;
     req_originalUrl := req_originalUrl req;
     req_url := url;
     req_headers := req_headers req |}.

Definition with_headers (hs : gmap string string) (req : request) : request :=
  {| req_method := req_method req;
     req_originalUrl := req_originalUrl req;
     req_url := req_url req;
     req_headers := hs |}.

(** The code units for which Express's URL parser ([parseurl]) hands a
    request target over to Node's [url.parse]: tab, line feed, form feed,
    carriage return, space, [#] and no-break space. *)
Definition leaves_fast_path (c : ascii) : bool :=
  let n := N_of_ascii c in
  (n =? 9)%N || (n =? 10)%N || (n =? 12)%N || (n =? 13)%N ||
  (n =? 32)%N || (n =? 35)%N || (n =? 160)%N.

(** A request target in origin form ([/path?query]) that [parseurl] reads
    on its own: it starts with a slash and has none of those code units.
    For these targets [pathname] below is the path Express routes by.  Other
    targets (the absolute form [http://host/path] above all) go through
    [url.parse], which this development does not embed: for them [pathname]
    is no more than the target up to its first [?] or [#]. *)
Definition origin_form (url : string) : bool :=
  startsWith "/" url && every (fun c => negb (leaves_fast_path c)) url.

(** [req.path]: the URL up to the query string (or fragment). *)
Fixpoint pathname (url : string) : string :=
  match url with
  | EmptyString => EmptyString
  | String c url' =>
      if Ascii.eqb c "?" || Ascii.eqb c "#" then EmptyString
      else String c (pathname url')
  end.

Definition req_path (req : request) : string := pathname (req_url req).

Inductive body :=
| BodyNone                      (* no payload *)
| BodyJson (j : json)           (* [res.json(j)] *)
| BodyFile (content : string)   (* a file of the build directory, or the
                                   range of it that was asked for *)
| BodyUpstream (payload : string) (* the upstream's payload, piped through *)
| BodyRedirect                  (* the page that goes with a redirect *)
| BodyFinalHandler.             (* Express's own not-found / error page *)

(** A response: status, headers and payload.  The headers recorded are
    those [server.js] writes itself, those the proxy relays, and
    [Cache-Control] also where the file-sending library fills it in; what
    the libraries add besides ([Content-Type], [ETag], [X-Powered-By], the
    [cors] package's headers, ...) is not recorded. *)
Record response := {
  status : Z;
  headers : gmap string string;
  payload : body
}.

End Http.

(** ** server.js *)

Module Server.
Import JsString Http.

(** *** The process environment: everything outside [server.js] a request
    can reach. *)

(** The request [http-proxy] sends: its method, the [target] it goes to,
    the [req.url] its path is made of (the library joins it to the path of
    the target), and its headers. *)
Record proxy_request := {
  preq_method : method;
  preq_target : string;
  preq_url : string;
  preq_headers : gmap string string
}.

(** The upstream's answer as [http-proxy] reads it ([proxyRes]); Node
    lower-cases the names in [proxyRes.headers]. *)
Record proxy_response := {
  pres_statusCode : Z;
  pres_headers : obj;
  pres_body : string
}.

(** A JavaScript [Error] as far as the code reads it. *)
Record error := { err_message : string }.

Inductive upstream_result :=
| UpstreamResponse (proxyRes : proxy_response)
| UpstreamError (err : error).  (* refused, timed out, TLS failure, ... *)

(** What [express.static] does with a request path under [buildPath]. *)
Inductive static_lookup :=
| StaticFile (filePath content : string) (* a file: it is sent *)
| StaticRedirect                         (* a directory named without its
                                            final slash: redirected to it *)
| StaticMiss.                            (* nothing to serve: [next()] *)

(** What [res.sendFile] finds at a path: the file, or the error the
    file-sending library raises (404 when there is nothing to send at the
    path, 500 when the file cannot be read). *)
Inductive file_lookup :=
| FileContent (content : string)
| FileError (status : Z).

(** What the file-sending library ([send], behind [express.static] and
    [res.sendFile]) makes of the validators and the range a request carries,
    for a file it has found; the file's date, size and entity tag decide. *)
Inductive send_verdict :=
| SendWhole                  (* the file, with 200 *)
| SendNotModified            (* 304 and no payload *)
| SendRange (part : string)  (* one range of the file, with 206 *)
| SendPreconditionFailed     (* the error 412 *)
| SendRangeNotSatisfiable.   (* the error 416 *)

Record env := {
  (** the proxy's [target] and its host *)
  CAMPUS_CONTROLLER_URL : string;
  target_host : string;
  (** [path.join(__dirname, 'build')] *)
  buildPath : string;
  (** [new Date().toISOString()] at the time of the call *)
  now : string;
  (** what [express.static] finds for a request path *)
  static_file : string -> static_lookup;
  (** the file system, read by [res.sendFile] *)
  read_file : string -> file_lookup;
  (** the verdict on a request's validators and range for the file at a path *)
  revalidate : gmap string string -> string -> send_verdict;
  (** the upstream controller, reached over the network *)
  upstream : proxy_request -> upstream_result
}.

(** *** Middleware

    The handlers of one request share its response object: a header one of
    them has set is there for the next.  A middleware is given the headers
    set so far and either sends the response, or calls [next()], or passes an
    error on ([next(err)], or a route whose path parameter cannot be
    decoded); an error carries the status of the response it ends in. *)

Inductive outcome :=
| Done (res : response)
| Next (res : gmap string string)
| NextError (status : Z) (res : gmap string string).

Definition handler := env -> request -> gmap string string -> outcome.
Definition middleware := handler.

(** *** [app.get('/health', ...)] *)

Definition health : handler :=
  fun e req res =>
    Done {| status := 200;
            headers := res;
            payload := BodyJson (JObject [("status", JString "ok");
                                          ("timestamp", JString (now e))]) |}.

(** *** [proxyOptions] *)

Definition pathRewrite (path : string) : string :=
  if includes "/platformmanager/" path
  then replace_anchored "/management/platformmanager" "/platformmanager" path
  else path.

Definition onProxyReq (proxyReq : proxy_request) (req : request) : proxy_request :=
  match req_headers req !! "authorization" with
  | Some authorization =>
      if truthy authorization
      then {| preq_method := preq_method proxyReq;
              preq_target := preq_target proxyReq;
              preq_url := preq_url proxyReq;
              preq_headers :=
                setHeader "Authorization" authorization (preq_headers proxyReq) |}
      else proxyReq
  | None => proxyReq
  end.

(** [a || b] on a possibly missing string. *)
Definition or_else (a : option string) (b : string) : string :=
  match a with
  | Some s => if truthy s then s else b
  | None => b
  end.

Definition onProxyRes (proxyRes : proxy_response) (req : request) : proxy_response :=
  {| pres_statusCode := pres_statusCode proxyRes;
     pres_headers :=
       obj_set "Access-Control-Allow-Credentials" "true"
         (obj_set "Access-Control-Allow-Origin"
            (or_else (req_headers req !! "origin") "*")
            (pres_headers proxyRes));
     pres_body := pres_body proxyRes |}.

Definition onError (err : error) (req : request) : response :=
  {| status := 500;
     headers := ∅;
     payload := BodyJson (JObject [("error", JString "Proxy Error");
                                   ("message", JString (err_message err));
                                   ("path", JString (req_url req))]) |}.

(** *** [createProxyMiddleware(proxyOptions)]

    [proxyOptions] is written for http-proxy-middleware 2.x ([onProxyReq],
    [onProxyRes], [onError] and [logLevel] are options of that release), and
    the middleware is modelled as that release works, with the [http-proxy]
    it drives.  It first puts [req.originalUrl] back into [req.url], then
    replaces [req.url] by [pathRewrite(req.url, req)].  [http-proxy] gives a
    [DELETE] that announces no body a [Content-Length] of 0, and sends the
    request to [target] with the inbound headers, a [Connection] header of
    its own and ([changeOrigin]) the target's host; [onProxyReq] runs on the
    outgoing request before it is sent.  An upstream answer goes through
    [onProxyRes], is given a [Connection] header if it has none, and is then
    relayed: the status, every property of [proxyRes.headers] in
    [Object.keys] order through [res.setHeader], and the payload.  A failure
    to reach the upstream goes to [onError].  The middleware never calls
    [next()]. *)

(** The first pass of [http-proxy]; it changes [req.headers] itself. *)
Definition deleteLength (req : request) : request :=
  if (method_eqb (req_method req) DELETE || method_eqb (req_method req) OPTIONS)
     && negb (truthy_opt (req_headers req !! "content-length"))
  then with_headers
         (delete "transfer-encoding"
            (<["content-length" := "0"]> (req_headers req))) req
  else req.

(** [req] as the three callbacks are handed it. *)
Definition seen (req : request) : request :=
  deleteLength (with_url (pathRewrite (req_originalUrl req)) req).

(** [/(^|,)\s*upgrade\s*($|,)/i.test(connection)]: one of the items
    between the commas is the word [upgrade], white space around it and
    letter case set aside. *)
Definition asks_upgrade (connection : string) : bool :=
  existsb (fun item => String.eqb (toLowerCase (trim item)) "upgrade")
          (split "," connection).

(** The [Connection] header of the outgoing request: [close], unless the
    inbound one asks for an upgrade. *)
Definition outgoing_connection (hs : gmap string string) : string :=
  match hs !! "connection" with
  | Some connection => if asks_upgrade connection then connection else "close"
  | None => "close"
  end.

Definition outgoing (e : env) (req : request) : proxy_request :=
  {| preq_method := req_method req;
     preq_target := CAMPUS_CONTROLLER_URL e;
     preq_url := req_url req;
     preq_headers :=
       <["host" := target_host e]>
         (<["connection" := outgoing_connection (req_headers req)]>
            (req_headers req)) |}.

(** The request that leaves for the upstream. *)
Definition forwarded (e : env) (req : request) : proxy_request :=
  onProxyReq (outgoing e (seen req)) (seen req).

(** An answer without a [Connection] header gets the inbound request's, or
    [keep-alive]. *)
Definition setConnection (req : request) (proxyRes : proxy_response)
  : proxy_response :=
  if truthy_opt (obj_get "connection" (pres_headers proxyRes)) then proxyRes
  else {| pres_statusCode := pres_statusCode proxyRes;
          pres_headers :=
            obj_set "connection"
              (or_else (req_headers req !! "connection") "keep-alive")
              (pres_headers proxyRes);
          pres_body := pres_body proxyRes |}.

(** [res.setHeader] for every property of [headers], in order. *)
Definition writeHeaders (headers : obj) (res : gmap string string)
  : gmap string string :=
  fold_left (fun h kv => setHeader kv.1 kv.2 h) headers res.

Definition relay (req : request) (proxyRes : proxy_response) : response :=
  {| status := pres_statusCode proxyRes;
     headers := writeHeaders (pres_headers (setConnection req proxyRes)) ∅;
     payload := BodyUpstream (pres_body proxyRes) |}.

Definition proxy (e : env) (req : request) : response :=
  match upstream e (forwarded e req) with
  | UpstreamResponse proxyRes =>
      relay (seen req) (onProxyRes proxyRes (seen req))
  | UpstreamError err => onError err (seen req)
  end.

(** *** The file-sending library *)

(** A request is conditional when one of the four validators is there and
    not empty. *)
Definition conditional (hs : gmap string string) : bool :=
  truthy_opt (hs !! "if-match") ||
  truthy_opt (hs !! "if-unmodified-since") ||
  truthy_opt (hs !! "if-none-match") ||
  truthy_opt (hs !! "if-modified-since").

Fixpoint skip_blanks (s : string) : string :=
  match s with
  | String " " s' => skip_blanks s'
  | _ => s
  end.

(** [/^ *bytes=/.test(req.headers.range)] *)
Definition bytes_range (hs : gmap string string) : bool :=
  match hs !! "range" with
  | Some range => startsWith "bytes=" (skip_blanks range)
  | None => false
  end.

(** A request with neither validators nor a byte range is sent the whole
    file; for any other the file's date, size and tag have their say. *)
Definition verdict (e : env) (req : request) (filePath : string) : send_verdict :=
  if conditional (req_headers req) || bytes_range (req_headers req)
  then revalidate e (req_headers req) filePath
  else SendWhole.

(** The library's own [Cache-Control], for a response that has none yet. *)
Definition default_cache_control (res : gmap string string) : gmap string string :=
  if truthy_opt (getHeader "Cache-Control" res) then res
  else setHeader "Cache-Control" "public, max-age=0" res.

(** Sending a file that has been found, onto a response with the headers
    [res]: the library fills in [Cache-Control], then looks at the
    validators and the range; what it refuses is an error with its status,
    and the headers set by then stay. *)
Definition send (e : env) (req : request) (filePath content : string)
    (res : gmap string string) : outcome :=
  let res' := default_cache_control res in
  match verdict e req filePath with
  | SendWhole =>
      Done {| status := 200; headers := res'; payload := BodyFile content |}
  | SendNotModified =>
      Done {| status := 304; headers := res'; payload := BodyNone |}
  | SendRange part =>
      Done {| status := 206; headers := res'; payload := BodyFile part |}
  | SendPreconditionFailed => NextError 412 res'
  | SendRangeNotSatisfiable => NextError 416 res'
  end.

(** *** [express.static(buildPath, { setHeaders })] *)

Definition setHeaders (res : gmap string string) (filePath : string)
  : gmap string string :=
  if endsWith ".html" filePath then
    setHeader "Expires" "0"
      (setHeader "Pragma" "no-cache"
         (setHeader "Cache-Control" "no-cache, no-store, must-revalidate" res))
  else if matches_extension ["js"; "css"] filePath then
    setHeader "Cache-Control" "public, max-age=31536000, immutable" res
  else if matches_extension
            ["jpg"; "jpeg"; "png"; "gif"; "svg"; "ico"; "woff"; "woff2"; "ttf"; "eot"]
            filePath then
    setHeader "Cache-Control" "public, max-age=604800" res
  else res.

(** [express.static] serves [GET] requests for files that are there; the
    library calls [setHeaders] once it has found the file, before anything
    else is set or looked at.  A request for which it finds no file it
    passes on; an error about a file it has found it passes on as an
    error. *)
Definition static : middleware :=
  fun e req res =>
    if method_eqb (req_method req) GET then
      match static_file e (req_path req) with
      | StaticFile filePath content =>
          send e req filePath content (setHeaders res filePath)
      | StaticRedirect =>
          Done {| status := 301; headers := res; payload := BodyRedirect |}
      | StaticMiss => Next res
      end
    else Next res.

(** *** [app.get('*', ...)] *)

(** [path.join(buildPath, 'index.html')] *)
Definition index_html (e : env) : string :=
  String.append (buildPath e) "/index.html".

(** [res.sendFile(path)]: what the library refuses or cannot send goes to
    [next(err)]. *)
Definition sendFile (e : env) (req : request) (path : string)
    (res : gmap string string) : outcome :=
  match read_file e path with
  | FileContent content => send e req path content res
  | FileError status => NextError status res
  end.

Definition spa_fallback : handler :=
  fun e req res =>
    if startsWith "/api/" (req_path req) then
      Done {| status := 404;
              headers := res;
              payload := BodyJson (JObject [("error", JString "API endpoint not found")]) |}
    else
      sendFile e req (index_html e)
        (setHeader "Expires" "0"
           (setHeader "Pragma" "no-cache"
              (setHeader "Cache-Control" "no-cache, no-store, must-revalidate" res))).

(** The three headers of a response that is not to be cached. *)
Definition uncacheable (res : gmap string string) : Prop :=
  getHeader "Cache-Control" res = Some "no-cache, no-store, must-revalidate" /\
  getHeader "Pragma" res = Some "no-cache" /\
  getHeader "Expires" res = Some "0".

(** *** The middleware stack, in registration order

    Express matches paths against [req.path] without regard to letter
    case; a route ([app.get]) matches the whole path and tolerates one
    trailing slash, a mount point ([app.use]) matches a prefix that ends at a
    slash or at the end of the path. *)

Definition matches_route (pattern path : string) : bool :=
  String.eqb pattern "*" ||
  String.eqb (toLowerCase path) pattern ||
  String.eqb (toLowerCase path) (String.append pattern "/").

Definition matches_mount (mount path : string) : bool :=
  let p := toLowerCase path in
  startsWith mount p &&
  (let rest := drop (String.length mount) p in
   String.eqb rest "" || startsWith "/" rest).

(** [app.get(pattern, handler)].  What [*] matches is a parameter of the
    route, and Express decodes it when it matches the path, before it looks
    at the method: a path that cannot be decoded is an error with status
    400. *)
Definition get (pattern : string) (h : handler) : middleware :=
  fun e req res =>
    if matches_route pattern (req_path req) then
      if String.eqb pattern "*" && negb (decodable (req_path req))
      then NextError 400 res
      else if method_eqb (req_method req) GET then h e req res
      else Next res
    else Next res.

(** How much of the path a mount point takes off: the mount path, and the
    slash behind it when that slash ends the path or another slash comes
    next. *)
Definition removed (mount path : string) : nat :=
  let rest := drop (String.length mount) path in
  if startsWith "/" rest &&
     (String.eqb (drop 1 rest) "" || startsWith "/" (drop 1 rest))
  then S (String.length mount) else String.length mount.

(** [req.url] inside [app.use(mount, ...)]: the mount point is cut off and
    the rest starts with a slash. *)
Definition mounted (mount : string) (req : request) : request :=
  let rest := drop (removed mount (req_path req)) (req_url req) in
  with_url (if startsWith "/" rest then rest else String "/" rest) req.

(** A response goes out on the response object with the headers set so far. *)
Definition onto (res : gmap string string) (r : response) : response :=
  {| status := status r; headers := headers r ∪ res; payload := payload r |}.

(** [app.use(mount, handler)] for a handler that never calls [next()]; the
    logging middleware [server.js] puts in front of the proxy only calls
    [next()]. *)
Definition use (mount : string) (h : env -> request -> response)
  : middleware :=
  fun e req res =>
    if matches_mount mount (req_path req)
    then Done (onto res (h e (mounted mount req))) else Next res.

(** [app.use(cors({...}))]: the package answers a preflight ([OPTIONS])
    itself with 204 and no payload, and lets every other request pass. *)
Definition cors : middleware :=
  fun e req res =>
    if method_eqb (req_method req) OPTIONS
    then Done {| status := 204; headers := res; payload := BodyNone |}
    else Next res.

(** What Express answers when no middleware has: its page for the error
    passed on, or for 404 when the stack is exhausted. *)
Definition final_handler (status : Z) (res : gmap string string) : response :=
  {| status := status; headers := res; payload := BodyFinalHandler |}.

Fixpoint run (stack : list middleware) (e : env) (req : request)
    (res : gmap string string) : response :=
  match stack with
  | [] => final_handler 404 res
  | m :: stack' =>
      match m e req res with
      | Done r => r
      | Next res' => run stack' e req res'
      | NextError status res' => final_handler status res'
      end
  end.

Definition app (e : env) (req : request) : response :=
  run [ cors;
        get "/health" health;
        use "/api" proxy;
        static;
        get "*" spa_fallback ] e req ∅.

End Server.

(** ** The browser client's session: [ApiService] *)

Module ApiService.
Import JsString.

(** The instance fields and the browser's [localStorage]. *)
Record state := {
  accessToken : option string;
  refreshToken : option string;
  localStorage : gmap string string
}.

(** How an awaited promise settles. *)
Inductive settled (A : Type) :=
| Resolved (a : A)
| Rejected (reason : string).
Arguments Resolved {A} a.
Arguments Rejected {A} reason.

(** An [async] method: it runs on the state and settles. *)
Definition M (A : Type) : Type := state -> settled A * state.

#[export] Instance M_ret : MRet M := fun A a s => (Resolved a, s).
#[export] Instance M_bind : MBind M := fun A B f m s =>
  match m s with
  | (Resolved a, s') => f a s'
  | (Rejected r, s') => (Rejected r, s')
  end.

(** [try { body } catch (error) { handler(error) }] *)
Definition try_catch {A} (body : M A) (handler : string -> M A) : M A :=
  fun s =>
    match body s with
    | (Resolved a, s') => (Resolved a, s')
    | (Rejected r, s') => handler r s'
    end.

Definition get_state : M state := fun s => (Resolved s, s).
Definition modify (f : state -> state) : M unit := fun s => (Resolved tt, f s).

(** A [fetch] call and what the network makes of it: a response with some
    status (2xx or not, [fetch] resolves either way) or a rejection. *)
Record fetch_call := {
  fetch_url : string;
  fetch_method : string;
  fetch_headers : list (string * string)
}.

Inductive fetch_outcome :=
| Responds (status : Z)
| Fails (reason : string).

Definition network := fetch_call -> fetch_outcome.

Definition fetch (net : network) (call : fetch_call) : M Z :=
  fun s =>
    match net call with
    | Responds st => (Resolved st, s)
    | Fails r => (Rejected r, s)
    end.

Definition set_accessToken (v : option string) (s : state) : state :=
  {| accessToken := v; refreshToken := refreshToken s;
     localStorage := localStorage s |}.
Definition set_refreshToken (v : option string) (s : state) : state :=
  {| accessToken := accessToken s; refreshToken := v;
     localStorage := localStorage s |}.
(** [localStorage.removeItem(key)] *)
Definition removeItem (key : string) (s : state) : state :=
  {| accessToken := accessToken s; refreshToken := refreshToken s;
     localStorage := delete key (localStorage s) |}.

(** [logout()]; both copies of the class have this body.  [BASE_URL] is the
    module constant, [net] the network the [fetch] goes to.  The
    [console.error] of the [catch] block writes no state. *)
Definition logout (BASE_URL : string) (net : network) : M unit :=
  s ← get_state;
  _ ← match accessToken s with
      | Some token =>
          if truthy token then
            try_catch
              (_ ← fetch net
                     {| fetch_url :=
                          String.append BASE_URL
                            (String.append "/v1/oauth2/token/" token);
                        fetch_method := "DELETE";
                        fetch_headers :=
                          [("Authorization", String.append "Bearer " token);
                           ("Accept", "application/json")] |};
               mret tt)
              (fun error => mret tt)
          else mret tt
      | None => mret tt
      end;
  _ ← modify (set_accessToken None);
  _ ← modify (set_refreshToken None);
  _ ← modify (removeItem "access_token");
  _ ← modify (removeItem "refresh_token");
  modify (removeItem "admin_role").

(** [isAuthenticated()]: [!!this.accessToken] *)
Definition isAuthenticated (s : state) : bool := truthy_opt (accessToken s).

End ApiService.

(** ** Sample deployments and sessions, for the examples below *)

Module Sample.
Import Http Server ApiService.

Definition build (p : string) : file_lookup :=
  if String.eqb p "/srv/build/index.html" then FileContent "<!doctype html>"
  else FileError 404.

(** The files of the build carry the entity tag [v1]. *)
Definition tagged (hs : gmap string string) (p : string) : send_verdict :=
  match hs !! "if-none-match" with
  | Some tag => if String.eqb tag "v1" then SendNotModified else SendWhole
  | None => SendWhole
  end.

Definition assets (p : string) : static_lookup :=
  if String.eqb p "/assets/app.js"
  then StaticFile "/srv/build/assets/app.js" "console.log(1)"
  else StaticMiss.

(** A deployment whose controller cannot be reached. *)
Definition unreachable : env :=
  {| CAMPUS_CONTROLLER_URL := "https://controller.example";
     target_host := "controller.example";
     buildPath := "/srv/build";
     now := "2024-05-01T12:00:00.000Z";
     static_file := assets;
     read_file := build;
     revalidate := tagged;
     upstream := fun _ => UpstreamError {| err_message := "connect ECONNREFUSED" |} |}.

(** A deployment whose controller answers every request with 200 and CORS
    headers of its own. *)
Definition reachable : env :=
  {| CAMPUS_CONTROLLER_URL := "https://controller.example";
     target_host := "controller.example";
     buildPath := "/srv/build";
     now := "2024-05-01T12:00:00.000Z";
     static_file := assets;
     read_file := build;
     revalidate := tagged;
     upstream := fun _ =>
       UpstreamResponse
         {| pres_statusCode := 200;
            pres_headers := [("content-type", "application/json");
                             ("access-control-allow-origin", "https://elsewhere.example")];
            pres_body := "[]" |} |}.

(** A deployment whose controller knows none of the paths it is asked for. *)
Definition strict : env :=
  {| CAMPUS_CONTROLLER_URL := "https://controller.example";
     target_host := "controller.example";
     buildPath := "/srv/build";
     now := "2024-05-01T12:00:00.000Z";
     static_file := assets;
     read_file := build;
     revalidate := tagged;
     upstream := fun _ =>
       UpstreamResponse
         {| pres_statusCode := 404;
            pres_headers := [("content-type", "text/plain")];
            pres_body := "no such resource" |} |}.

(** A browser session after a login. *)
Definition signed_in : state :=
  {| accessToken := Some "tok";
     refreshToken := Some "ref";
     localStorage := {["access_token" := "tok"; "refresh_token" := "ref";
                       "admin_role" := "FULL"; "theme" := "dark"]} |}.

End Sample.

(** ** The rest of [ApiService]: construction, login, token refresh,
    authenticated requests and the connectivity test

    These methods read more of a response than [logout] does and tell errors
    apart by name, so they run in a richer setting than [ApiService.M]: a
    thrown value is an [Error] with a name and a message, every [fetch] is
    logged, and the network answers the n-th [fetch] of a run as a script
    says, so that equal requests can be answered differently.  The
    [AbortController] timers show up as a [fetch] that rejects with an
    [AbortError].  Whatever is thrown is an [Error] (what [fetch] and the
    body readers reject with is one), and [localStorage] is a map without a
    quota, so [setItem] does not throw.  The fields of the session hold what
    the class declares for them, a string or [null]; of a grant that is not of
    the declared shape the falsy values are followed as well, see [kept]. *)

Module ApiClient.
Import JsString Http ApiService.

(** A thrown [Error]. *)
Record js_error := { error_name : string; error_message : string }.

(** [new Error(message)] *)
Definition Error (message : string) : js_error :=
  {| error_name := "Error"; error_message := message |}.

Record AuthResponse := {
  access_token : string;
  token_type : string;
  expires_in : Z;
  idle_timeout : Z;
  refresh_token : string;
  adminRole : string
}.

(** What a property read can find where the code expects a string, as far
    as this development follows it: a string, or one of the falsy values
    [undefined] (the property is missing), [null], [false] and the number
    zero. *)
Inductive loose :=
| LString (s : string)
| LUndefined
| LNull
| LFalse
| LZero.

(** The three properties [login] and [refreshAccessToken] read of a
    grant, as they are found in a JSON value; [None] for anything else than
    the above (another number, [true], an array, an object). *)
Record found_grant := {
  found_access_token : option loose;
  found_refresh_token : option loose;
  found_adminRole : option loose
}.

(** Reading a response body as a value of the type the code takes it
    for: the body is such a value, or the read ends in an exception, or the
    body is read and is something else, with [found] for the properties of a
    grant. *)
Inductive read (A : Type) :=
| Read (a : A)
| ReadFails (err : js_error)
| ReadOther (found : found_grant).
Arguments Read {A} a.
Arguments ReadFails {A} err.
Arguments ReadOther {A} found.

(** A [Response] as far as the code looks at it: [status],
    [statusText], [await response.text()] and [await response.json()] taken
    as an [AuthResponse], which is how [login] and [refreshAccessToken] take
    it without a check.  [res_json] is [Read a] when the body is the JSON of
    an [AuthResponse] [a].  It is [ReadFails err] when the read rejects (the
    body is no JSON), and also when the body is the JSON [null], whose first
    property read throws.  It is [ReadOther found] for every other JSON
    value. *)
Record Response := {
  res_status : Z;
  res_statusText : string;
  res_text : read string;
  res_json : read AuthResponse
}.

(** [response.ok] *)
Definition ok (response : Response) : bool :=
  (200 <=? res_status response)%Z && (res_status response <=? 299)%Z.

(** The [body] of a request: none, [JSON.stringify(j)], or a value the
    caller made. *)
Inductive body_init :=
| NoBody
| Stringified (j : json)
| Opaque (s : string).

(** The arguments of one [fetch]: the URL and the [method], [headers] and
    [body] of its init object ([signal] is the timer's, see above).  The
    headers are a plain object: names are told apart by letter case. *)
Record fetch_init := {
  init_url : string;
  init_method : option string;
  init_headers : gmap string string;
  init_body : body_init
}.

(** The [options] a caller hands to [makeAuthenticatedRequest]. *)
Record RequestInit := {
  opt_method : option string;
  opt_headers : gmap string string;
  opt_body : body_init
}.

Inductive fetch_result :=
| Resolves (response : Response)
| Rejects (err : js_error).

(** What the network makes of the first, second, ... [fetch] of a run. *)
Definition script := nat -> fetch_result.

(** The service instance with its [localStorage], the requests sent so far,
    and whether a [logout()] that nobody awaits is waiting for its [fetch]. *)
Record world := {
  session : state;
  sent : list fetch_init;
  logout_pending : bool
}.

Definition with_session (s : state) (w : world) : world :=
  {| session := s; sent := sent w; logout_pending := logout_pending w |}.

(** How a call of an [async] method ends: it returns, it throws, or (for
    the one method that calls itself) it is still retrying when the retries
    the model follows are used up, or it has come upon a value that is not
    of the type the code takes it for and that the types here cannot hold,
    and the model follows it no further. *)
Inductive completion (A : Type) :=
| Returns (a : A)
| Throws (err : js_error)
| Unsettled
| Untyped.
Arguments Returns {A} a.
Arguments Throws {A} err.
Arguments Unsettled {A}.
Arguments Untyped {A}.

Definition Async (A : Type) : Type := world -> completion A * world.

#[export] Instance Async_ret : MRet Async := fun A a w => (Returns a, w).
#[export] Instance Async_bind : MBind Async := fun A B f m w =>
  match m w with
  | (Returns a, w') => f a w'
  | (Throws err, w') => (Throws err, w')
  | (Unsettled, w') => (Unsettled, w')
  | (Untyped, w') => (Untyped, w')
  end.

Definition throw {A} (err : js_error) : Async A := fun w => (Throws err, w).

(** [try { body } catch (error) { handler(error) }] *)
Definition try_catch {A} (body : Async A) (handler : js_error -> Async A)
  : Async A :=
  fun w =>
    match body w with
    | (Throws err, w') => handler err w'
    | settled => settled
    end.

Definition get_session : Async state := fun w => (Returns (session w), w).

Definition update (f : state -> state) : Async unit :=
  fun w => (Returns tt, with_session (f (session w)) w).

(** [await fetch(url, init)] *)
Definition fetch (net : script) (init : fetch_init) : Async Response :=
  fun w =>
    let w' := {| session := session w;
                 sent := (sent w ++ [init])%list;
                 logout_pending := logout_pending w |} in
    match net (length (sent w)) with
    | Resolves response => (Returns response, w')
    | Rejects err => (Throws err, w')
    end.

Definition untyped {A} : Async A := fun w => (Untyped, w).

(** [await response.text()], [await response.json()] *)
Definition await {A} (r : read A) : Async A :=
  match r with
  | Read a => mret a
  | ReadFails err => throw err
  | ReadOther _ => untyped
  end.

(** [localStorage.setItem(key, value)] *)
Definition setItem (key value : string) (s : state) : state :=
  {| accessToken := accessToken s; refreshToken := refreshToken s;
     localStorage := <[key := value]> (localStorage s) |}.

(** The line feed of the messages. *)
Definition LF : string := String (ascii_of_N 10) EmptyString.

(** [String(n)] for a status code. *)
Definition decimal (n : Z) : string :=
  NilZero.string_of_int (Z.to_int n).

(** [new ApiService()]: the tokens come from [localStorage]. *)
Definition constructor (storage : gmap string string) : state :=
  {| accessToken := storage !! "access_token";
     refreshToken := storage !! "refresh_token";
     localStorage := storage |}.

(** [getAdminRole()] *)
Definition getAdminRole (s : state) : option string :=
  localStorage s !! "admin_role".

(** What the [try] block of [login] makes of the text of a failed
    response, [JSON.parse(errorText)] and the reads
    [errorData.errors[0].errorMessage] included: the block throws (no JSON,
    or a read of [null]), it finds no message and keeps the default, or it
    finds one. *)
Inductive server_error :=
| Unreadable
| NoMessage
| Message (errorMessage : string).

Definition credentials_hint : string :=
  String.append LF (String.append LF
    (String.append "Please check:" (String.append LF
      (String.append "- Username/User ID is correct" (String.append LF
        (String.append "- Password is correct" (String.append LF
          "- Account is not locked or disabled"))))))).

(** What the class keeps of a value it assigns to [accessToken] or
    [refreshToken].  A field is tested for truthiness before each of its
    uses, so [None] stands for [null] and for every other falsy value that is
    no string. *)
Definition kept (v : loose) : option string :=
  match v with
  | LString s => Some s
  | _ => None
  end.

(** [String(v)], which is what [localStorage.setItem] stores. *)
Definition shown (v : loose) : string :=
  match v with
  | LString s => s
  | LUndefined => "undefined"
  | LNull => "null"
  | LFalse => "false"
  | LZero => "0"
  end.

(** The two assignments and the [setItem] calls that follow
    [await response.json()]; [refreshAccessToken] leaves the role alone. *)
Definition store (access refresh : loose) (role : option loose) : Async unit :=
  _ ← update (set_accessToken (kept access));
  _ ← update (set_refreshToken (kept refresh));
  _ ← update (setItem "access_token" (shown access));
  _ ← update (setItem "refresh_token" (shown refresh));
  match role with
  | Some role => update (setItem "admin_role" (shown role))
  | None => mret tt
  end.

(** [login(userId, password)]; [parse] stands for [JSON.parse] and the
    reads on its result, as [server_error] says.  A grant that is no
    [AuthResponse] is stored like any other; what [login] then returns is no
    [AuthResponse]. *)
Definition login (BASE_URL : string) (parse : string -> server_error)
    (net : script) (userId password : string) : Async AuthResponse :=
  if negb (truthy (trim userId)) then throw (Error "User ID is required")
  else if negb (truthy (trim password)) then throw (Error "Password is required")
  else
    let requestBody :=
      JObject [("grant_type", JString "password");
               ("username", JString (trim userId));
               ("password", JString password);
               ("scope", JString "")] in
    try_catch
      (response ← fetch net
         {| init_url := String.append BASE_URL "/v1/oauth2/token";
            init_method := Some "POST";
            init_headers := {["Content-Type" := "application/json";
                              "Accept" := "application/json"]};
            init_body := Stringified requestBody |};
       if ok response then
         match res_json response with
         | Read authResponse =>
             _ ← store (LString (access_token authResponse))
                       (LString (refresh_token authResponse))
                       (Some (LString (adminRole authResponse)));
             mret authResponse
         | ReadFails err => throw err
         | ReadOther found =>
             match found_access_token found, found_refresh_token found,
                   found_adminRole found with
             | Some access, Some refresh, Some role =>
                 _ ← store access refresh (Some role); untyped
             | _, _, _ => untyped
             end
         end
       else
         errorText ← await (res_text response);
         let errorMessage :=
           match parse errorText with
           | Message m => m
           | NoMessage => "Authentication failed"
           | Unreadable =>
               if ((0 <? String.length errorText) &&
                   (String.length errorText <? 200))%nat
               then errorText else "Authentication failed"
           end in
         let errorMessage :=
           if (res_status response =? 401)%Z
           then String.append errorMessage credentials_hint
           else errorMessage in
         throw (Error errorMessage))
      (fun error =>
         if includes "Authentication failed" (error_message error) then throw error
         else
           throw (Error
             (if String.eqb (error_name error) "AbortError" then
                "Login request timed out - please check your network connection and try again"
              else if includes "fetch" (error_message error) then
                "Cannot connect to server - please check your network connection"
              else String.append "Login error: " (error_message error)))).

(** [refreshAccessToken()] *)
Definition refreshAccessToken (BASE_URL : string) (net : script) : Async unit :=
  s ← get_session;
  match refreshToken s with
  | Some token =>
      if truthy token then
        try_catch
          (response ← fetch net
             {| init_url := String.append BASE_URL "/v1/oauth2/refreshToken";
                init_method := Some "POST";
                init_headers := {["Content-Type" := "application/json";
                                  "Accept" := "application/json"]};
                init_body := Stringified (JObject [("refresh_token", JString token)]) |};
           if negb (ok response) then throw (Error "Token refresh failed")
           else
             match res_json response with
             | Read authResponse =>
                 store (LString (access_token authResponse))
                       (LString (refresh_token authResponse)) None
             | ReadFails err => throw err
             | ReadOther found =>
                 match found_access_token found, found_refresh_token found with
                 | Some access, Some refresh => store access refresh None
                 | _, _ => untyped
                 end
             end)
          (fun error =>
             if String.eqb (error_name error) "AbortError"
             then throw (Error "Token refresh timed out")
             else throw error)
      else throw (Error "No refresh token available")
  | None => throw (Error "No refresh token available")
  end.

(** What [logout()] does to the session once its [fetch] has settled. *)
Definition cleared (s : state) : state :=
  removeItem "admin_role"
    (removeItem "refresh_token"
       (removeItem "access_token"
          (set_refreshToken None (set_accessToken None s)))).

(** [this.logout()] called and not awaited: [logout] runs up to its
    [await]; with a token that is the [fetch] of the revocation, and the rest
    waits for it, without one [logout] runs to its end at once. *)
Definition logout_unawaited (BASE_URL : string) : Async unit :=
  fun w =>
    match accessToken (session w) with
    | Some token =>
        if truthy token then
          (Returns tt,
           {| session := session w;
              sent := (sent w ++
                       [{| init_url :=
                             String.append BASE_URL
                               (String.append "/v1/oauth2/token/" token);
                           init_method := Some "DELETE";
                           init_headers :=
                             {["Authorization" := String.append "Bearer " token;
                               "Accept" := "application/json"]};
                           init_body := NoBody |}])%list;
              logout_pending := true |})
        else (Returns tt, with_session (cleared (session w)) w)
    | None => (Returns tt, with_session (cleared (session w)) w)
    end.

(** The [fetch] of a waiting [logout()] settles, and [logout] finishes. *)
Definition settle (w : world) : world :=
  if logout_pending w
  then {| session := cleared (session w); sent := sent w; logout_pending := false |}
  else w.

(** [makeAuthenticatedRequest(endpoint, options)].  The method calls itself
    after a token refresh; [calls] bounds the calls the model follows.  The
    retry is returned without [await], so neither [catch] sees what it
    throws. *)
Fixpoint makeAuthenticatedRequest (calls : nat) (BASE_URL : string)
    (net : script) (endpoint : string) (options : RequestInit)
  : Async Response :=
  match calls with
  | O => fun w => (Unsettled, w)
  | S calls' =>
      s ← get_session;
      match accessToken s with
      | Some token =>
          if truthy token then
            let headers : gmap string string :=
              opt_headers options ∪
              {["Authorization" := String.append "Bearer " token;
                "Accept" := "application/json";
                "Content-Type" := "application/json"]} in
            next ← try_catch
              (response ← fetch net
                 {| init_url := String.append BASE_URL endpoint;
                    init_method := opt_method options;
                    init_headers := headers;
                    init_body := opt_body options |};
               if (res_status response =? 401)%Z then
                 s' ← get_session;
                 if truthy_opt (refreshToken s') then
                   try_catch
                     (_ ← refreshAccessToken BASE_URL net; mret None)
                     (fun _ =>
                        _ ← logout_unawaited BASE_URL;
                        throw (Error "Session expired. Please login again."))
                 else
                   _ ← logout_unawaited BASE_URL;
                   throw (Error "Authentication required")
               else mret (Some response))
              (fun error =>
                 if String.eqb (error_name error) "AbortError"
                 then throw (Error "Request timed out after 15 seconds")
                 else throw error);
            match next with
            | Some response => mret response
            | None => makeAuthenticatedRequest calls' BASE_URL net endpoint options
            end
          else throw (Error "No access token available")
      | None => throw (Error "No access token available")
      end
  end.

(** [testConnectivity()] *)
Definition testConnectivity (BASE_URL : string) (net : script)
  : Async (bool * string) :=
  try_catch
    (response ← fetch net
       {| init_url := String.append BASE_URL "/v1/oauth2/token";
          init_method := Some "OPTIONS";
          init_headers := {["Accept" := "application/json"]};
          init_body := NoBody |};
     if ok response || (res_status response =? 405)%Z then
       mret (true, "API server is reachable")
     else
       mret (false,
             String.append "Server responded with "
               (String.append (decimal (res_status response))
                  (String.append ": " (res_statusText response)))))
    (fun error =>
       mret (false,
             if String.eqb (error_name error) "AbortError"
             then "Connection test timed out - server may be unreachable"
             else error_message error)).


(** The tokens in memory are the tokens in [localStorage]. *)
Definition in_step (s : state) : Prop :=
  accessToken s = localStorage s !! "access_token" /\
  refreshToken s = localStorage s !! "refresh_token".


End ApiClient.

(** ** Sample answers of the controller, for the examples below *)

Module SampleClient.
Import Http ApiService ApiClient.

Definition granted : AuthResponse :=
  {| access_token := "new-access";
     token_type := "Bearer";
     expires_in := 7200;
     idle_timeout := 604800;
     refresh_token := "new-refresh";
     adminRole := "FULL" |}.

(** The token endpoint grants. *)
Definition grant : Response :=
  {| res_status := 200;
     res_statusText := "OK";
     res_text := Read "{...}";
     res_json := Read granted |}.

(** An answer with a status and a text that is no [AuthResponse]: of the
    texts used below, [{}] and [[]] are JSON without any of the properties
    of a grant, the others are no JSON. *)
Definition answer (status : Z) (statusText text : string) : Response :=
  {| res_status := status;
     res_statusText := statusText;
     res_text := Read text;
     res_json :=
       if String.eqb text "{}" || String.eqb text "[]"
       then ReadOther {| found_access_token := Some LUndefined;
                         found_refresh_token := Some LUndefined;
                         found_adminRole := Some LUndefined |}
       else ReadFails {| error_name := "SyntaxError";
                         error_message := "Unexpected token" |} |}.

(** A browser that has never logged in. *)
Definition fresh : world :=
  {| session := constructor ∅; sent := []; logout_pending := false |}.

(** A browser holding a session. *)
Definition logged_in : world :=
  {| session := constructor {["access_token" := "tok"; "refresh_token" := "ref";
                               "admin_role" := "FULL"; "theme" := "dark"]};
     sent := [];
     logout_pending := false |}.

(** A browser holding an access token and no refresh token. *)
Definition without_refresh : world :=
  {| session := constructor {["access_token" := "tok"; "admin_role" := "FULL"]};
     sent := [];
     logout_pending := false |}.

(** Every [fetch] is answered with the same response. *)
Definition always (response : Response) : script := fun _ => Resolves response.

(** The network is down. *)
Definition offline : script :=
  fun _ => Rejects {| error_name := "TypeError"; error_message := "Failed to fetch" |}.

(** The first request is refused with 401, the refresh is granted, the
    retry is answered. *)
Definition expired_then_renewed : script :=
  fun n =>
    match n with
    | O => Resolves (answer 401 "Unauthorized" "")
    | S O => Resolves grant
    | _ => Resolves (answer 200 "OK" "[]")
    end.

(** The controller's error bodies carry no message. *)
Definition no_detail : string -> server_error := fun _ => NoMessage.

(** The controller's error bodies are a message. *)
Definition detail : string -> server_error := fun text => Message text.

End SampleClient.

(** ** Facts about the string primitives *)

Section JsStringFacts.
Import JsString.

Lemma append_nil_l s : String.append "" s = s.
Proof. reflexivity. Qed.

Lemma append_cons c a s :
  String.append (String c a) s = String c (String.append a s).
Proof. reflexivity. Qed.

Lemma startsWith_app pre r : startsWith pre (String.append pre r) = true.
Proof.
  induction pre as [|a pre IH]; simpl; [reflexivity|].
  rewrite Ascii.eqb_refl. exact IH.
Qed.

Lemma startsWith_cons a pre b s :
  startsWith (String a pre) (String b s) =
  if Ascii.eqb a b then startsWith pre s else false.
Proof. reflexivity. Qed.

Lemma startsWith_inv pre s :
  startsWith pre s = true -> exists r, s = String.append pre r.
Proof.
  revert s. induction pre as [|a pre IH]; intros s H; simpl in *.
  - exists s. reflexivity.
  - destruct s as [|b s]; [discriminate|].
    destruct (Ascii.eqb a b) eqn:E; [|discriminate].
    apply Ascii.eqb_eq in E. subst b.
    destruct (IH _ H) as [r ->]. exists r. reflexivity.
Qed.

Lemma startsWith_iff pre s :
  startsWith pre s = true <-> exists r, s = String.append pre r.
Proof.
  split; [apply startsWith_inv|].
  intros [r ->]. apply startsWith_app.
Qed.

Lemma drop_app pre r : drop (String.length pre) (String.append pre r) = r.
Proof. induction pre as [|a pre IH]; simpl; [reflexivity | exact IH]. Qed.

Lemma replace_anchored_app lit repl r :
  replace_anchored lit repl (String.append lit r) = String.append repl r.
Proof.
  unfold replace_anchored. rewrite startsWith_app, drop_app. reflexivity.
Qed.

Lemma replace_anchored_other lit repl s :
  startsWith lit s = false -> replace_anchored lit repl s = s.
Proof. unfold replace_anchored. intros ->. reflexivity. Qed.

Lemma includes_here sub s : startsWith sub s = true -> includes sub s = true.
Proof. intros H. destruct s; simpl; rewrite H; reflexivity. Qed.

Lemma includes_iff sub s :
  includes sub s = true <->
  exists a b, s = String.append a (String.append sub b).
Proof.
  split.
  - induction s as [|c s IH]; simpl; intros H.
    + rewrite orb_false_r in H. apply startsWith_inv in H as [r ->].
      exists "", r. reflexivity.
    + apply orb_true_iff in H as [H|H].
      * apply startsWith_inv in H as [r ->]. exists "", r. reflexivity.
      * destruct (IH H) as (a & b & ->). exists (String c a), b. reflexivity.
  - intros (a & b & ->). induction a as [|c a IH].
    + rewrite append_nil_l. apply includes_here, startsWith_app.
    + rewrite append_cons. simpl. rewrite IH. apply orb_true_r.
Qed.

Lemma endsWith_nil suf : endsWith suf "" = String.eqb "" suf.
Proof. unfold endsWith. apply orb_false_r. Qed.

Lemma endsWith_cons suf c s :
  endsWith suf (String c s) = String.eqb (String c s) suf || endsWith suf s.
Proof. reflexivity. Qed.

Lemma endsWith_refl s : endsWith s s = true.
Proof.
  destruct s; [reflexivity|].
  rewrite endsWith_cons, String.eqb_refl. reflexivity.
Qed.

Lemma endsWith_iff suf s :
  endsWith suf s = true <-> exists a, s = String.append a suf.
Proof.
  split.
  - induction s as [|c s IH]; intros H.
    + rewrite endsWith_nil in H. apply String.eqb_eq in H. subst suf.
      exists "". reflexivity.
    + rewrite endsWith_cons in H. apply orb_true_iff in H as [H|H].
      * apply String.eqb_eq in H. subst suf. exists "". reflexivity.
      * destruct (IH H) as [a ->]. exists (String c a). reflexivity.
  - intros [a ->]. induction a as [|c a IH].
    + rewrite append_nil_l. apply endsWith_refl.
    + rewrite append_cons, endsWith_cons, IH. apply orb_true_r.
Qed.

End JsStringFacts.

(** ** The proxy's path rewrite *)

Section PathRewrite.
Import JsString Server.

Lemma includes_false sub s : includes sub s = false <-> ~ contains sub s.
Proof.
  unfold contains. rewrite <- includes_iff.
  destruct (includes sub s); split; intros H; try reflexivity;
    try discriminate; try (intros C; discriminate C).
  exfalso. apply H. reflexivity.
Qed.

Lemma startsWith_false pre s : startsWith pre s = false <-> ~ begins_with pre s.
Proof.
  unfold begins_with. rewrite <- startsWith_iff.
  destruct (startsWith pre s); split; intros H; try reflexivity;
    try discriminate; try (intros C; discriminate C).
  exfalso. apply H. reflexivity.
Qed.

Lemma pathRewrite_without_segment path :
  includes "/platformmanager/" path = false -> pathRewrite path = path.
Proof. unfold pathRewrite. intros ->. reflexivity. Qed.

Lemma pathRewrite_without_prefix path :
  startsWith "/management/platformmanager" path = false -> pathRewrite path = path.
Proof.
  unfold pathRewrite. intros H.
  destruct (includes _ path); [|reflexivity].
  apply replace_anchored_other, H.
Qed.

Lemma pathRewrite_strip rest :
  includes "/platformmanager/"
           (String.append "/management/platformmanager" rest) = true ->
  pathRewrite (String.append "/management/platformmanager" rest)
  = String.append "/platformmanager" rest.
Proof.
  unfold pathRewrite. intros ->. apply replace_anchored_app.
Qed.

(** What [pathRewrite] returns is the argument or starts with
    [/platformmanager]; in both cases a second pass finds no prefix to
    take off. *)
Lemma pathRewrite_cases path :
  pathRewrite path = path \/
  exists rest, path = String.append "/management/platformmanager" rest /\
               pathRewrite path = String.append "/platformmanager" rest.
Proof.
  destruct (includes "/platformmanager/" path) eqn:Hseg.
  - destruct (startsWith "/management/platformmanager" path) eqn:Hpre.
    + right. apply startsWith_inv in Hpre as [rest ->].
      exists rest. split; [reflexivity|]. apply pathRewrite_strip, Hseg.
    + left. apply pathRewrite_without_prefix, Hpre.
  - left. apply pathRewrite_without_segment, Hseg.
Qed.

Lemma rewritten_has_no_prefix rest :
  startsWith "/management/platformmanager"
             (String.append "/platformmanager" rest) = false.
Proof. reflexivity. Qed.

Example pathRewrite_platformmanager :
  pathRewrite "/management/platformmanager/v1/reports?x=1"
  = "/platformmanager/v1/reports?x=1".
Proof. reflexivity. Qed.

Example pathRewrite_other :
  pathRewrite "/management/v1/aps" = "/management/v1/aps".
Proof. reflexivity. Qed.

Example pathRewrite_segment_elsewhere :
  pathRewrite "/management/v3/platformmanager/x" = "/management/v3/platformmanager/x".
Proof. reflexivity. Qed.

Example pathRewrite_prefix_without_segment :
  pathRewrite "/management/platformmanager" = "/management/platformmanager".
Proof. reflexivity. Qed.

(** C1: [pathRewrite] maps a path that contains the segment
    [/platformmanager/] by replacing a leading
    [/management/platformmanager] with [/platformmanager], the rest of the
    path kept as it is (a path that has the segment but not that prefix has
    nothing to replace and comes back as it is); every path without the
    segment is returned unchanged.  The result is fixed in each case, so
    there is no other variant. *)
Theorem pathRewrite_rule (path : string) :
  (contains "/platformmanager/" path ->
     (forall rest,
         path = String.append "/management/platformmanager" rest ->
         pathRewrite path = String.append "/platformmanager" rest) /\
     (~ begins_with "/management/platformmanager" path ->
      pathRewrite path = path)) /\
  (~ contains "/platformmanager/" path -> pathRewrite path = path).
Proof.
  split.
  - intros Hseg. apply includes_iff in Hseg. split.
    + intros rest ->. apply pathRewrite_strip, Hseg.
    + intros Hpre. apply pathRewrite_without_prefix, startsWith_false, Hpre.
  - intros Hseg. apply pathRewrite_without_segment, includes_false, Hseg.
Qed.

(** C10: [pathRewrite] is idempotent; a path it has changed starts with
    [/platformmanager], not with the [/management/platformmanager] the
    anchored replacement looks for. *)
Theorem pathRewrite_idempotent (path : string) :
  pathRewrite (pathRewrite path) = pathRewrite path /\
  (pathRewrite path = path \/
   startsWith "/management/platformmanager" (pathRewrite path) = false).
Proof.
  destruct (pathRewrite_cases path) as [Hid | (rest & -> & Hrw)].
  - split; [rewrite Hid; exact Hid | left; exact Hid].
  - rewrite Hrw. split.
    + apply pathRewrite_without_prefix, rewritten_has_no_prefix.
    + right. apply rewritten_has_no_prefix.
Qed.

End PathRewrite.

(** ** Routing: which middleware answers a request *)

Section Routing.
Import JsString Http Server.

Lemma method_eqb_eq a b : method_eqb a b = true <-> a = b.
Proof. destruct a, b; simpl; split; intros H; congruence. Qed.

Lemma method_eqb_neq a b : a <> b -> method_eqb a b = false.
Proof.
  intros H. destruct (method_eqb a b) eqn:E; [|reflexivity].
  apply method_eqb_eq in E. contradiction.
Qed.

(** A path under the [/api] mount is not the liveness path. *)
Lemma mount_not_health path :
  matches_mount "/api" path = true -> matches_route "/health" path = false.
Proof.
  unfold matches_mount, matches_route. intros H.
  apply andb_true_iff in H as [H _].
  apply startsWith_inv in H as [r ->]. reflexivity.
Qed.

(** A path that starts with [/api/] is under the [/api] mount. *)
Lemma api_prefix_mount path :
  startsWith "/api/" path = true -> matches_mount "/api" path = true.
Proof.
  intros H. apply startsWith_inv in H as [r ->]. reflexivity.
Qed.

Lemma not_mount_not_api_prefix path :
  matches_mount "/api" path = false -> startsWith "/api/" path = false.
Proof.
  intros H. destruct (startsWith "/api/" path) eqn:Hapi; [|reflexivity].
  apply api_prefix_mount in Hapi. congruence.
Qed.

(** The rewrite leaves every URL under the [/api] mount alone: such a URL
    starts with [/a] or [/A]. *)
Lemma pathRewrite_under_mount url :
  matches_mount "/api" (pathname url) = true -> pathRewrite url = url.
Proof.
  intros H. apply pathRewrite_without_prefix.
  destruct url as [|c1 [|c2 url]]; try reflexivity.
  - rewrite startsWith_cons. destruct (Ascii.eqb "/" c1); reflexivity.
  - rewrite !startsWith_cons.
    destruct (Ascii.eqb_spec "/" c1) as [<-|]; [|reflexivity].
    destruct (Ascii.eqb_spec "m" c2) as [<-|]; [|reflexivity].
    exfalso. revert H. unfold matches_mount. simpl.
    discriminate.
Qed.

Lemma onto_empty r : onto ∅ r = r.
Proof.
  destruct r as [st hs p]. unfold onto. cbn [status headers payload].
  f_equal. apply (right_id_L ∅ (∪)).
Qed.

Lemma app_preflight e req :
  req_method req = OPTIONS ->
  app e req = {| status := 204; headers := ∅; payload := BodyNone |}.
Proof. unfold app, run, cors. intros ->. reflexivity. Qed.


Lemma app_api e req :
  req_method req <> OPTIONS ->
  matches_mount "/api" (req_path req) = true ->
  app e req = proxy e (mounted "/api" req).
Proof.
  intros Hm Hp. unfold app, run, cors, get, use.
  rewrite (method_eqb_neq _ _ Hm), (mount_not_health _ Hp), Hp.
  apply onto_empty.
Qed.

(** A [GET] outside the liveness route and the [/api] mount is left to
    [express.static] and the catch-all route. *)
Lemma app_files e req :
  req_method req = GET ->
  matches_route "/health" (req_path req) = false ->
  matches_mount "/api" (req_path req) = false ->
  app e req = run [static; get "*" spa_fallback] e req ∅.
Proof.
  intros Hm Hh Hp. unfold app.
  cbn [run]. unfold cors at 1, get at 1, use at 1.
  rewrite Hm, Hh, Hp. reflexivity.
Qed.

(** Any other method outside the mount finds no handler; what is left is
    the catch-all route's attempt to decode the path. *)
Lemma app_no_handler e req :
  req_method req <> GET ->
  req_method req <> OPTIONS ->
  matches_mount "/api" (req_path req) = false ->
  app e req
  = final_handler (if decodable (req_path req) then 404 else 400) ∅.
Proof.
  intros Hget Hopt Hp. unfold app, run, cors, get, use, static.
  rewrite (method_eqb_neq _ _ Hopt), (method_eqb_neq _ _ Hget), Hp.
  destruct (matches_route "/health" (req_path req));
    cbn [matches_route String.eqb orb andb];
    destruct (decodable (req_path req)); reflexivity.
Qed.

(** The catch-all route on a path outside the mount. *)
Lemma catch_all e req res :
  req_method req = GET ->
  startsWith "/api/" (req_path req) = false ->
  get "*" spa_fallback e req res =
    if decodable (req_path req) then
      sendFile e req (index_html e)
        (setHeader "Expires" "0"
           (setHeader "Pragma" "no-cache"
              (setHeader "Cache-Control" "no-cache, no-store, must-revalidate" res)))
    else NextError 400 res.
Proof.
  intros Hm Hapi. unfold get, spa_fallback.
  rewrite Hm, Hapi. cbn [matches_route String.eqb orb andb method_eqb].
  destruct (decodable (req_path req)); reflexivity.
Qed.

Lemma verdict_plain e req filePath :
  conditional (req_headers req) = false ->
  bytes_range (req_headers req) = false ->
  verdict e req filePath = SendWhole.
Proof. unfold verdict. intros -> ->. reflexivity. Qed.

Example upper_case_api_is_proxied :
  app Sample.unreachable (incoming GET "/API/management/v1/aps" ∅)
  = proxy Sample.unreachable
      (mounted "/api" (incoming GET "/API/management/v1/aps" ∅)).
Proof. reflexivity. Qed.

Example apix_is_a_client_route :
  payload (app Sample.unreachable (incoming GET "/apix" ∅))
  = BodyFile "<!doctype html>".
Proof. reflexivity. Qed.

Example post_outside_api_is_not_found :
  app Sample.unreachable (incoming POST "/dashboard" ∅) = final_handler 404 ∅.
Proof. reflexivity. Qed.

Example malformed_escape_is_a_bad_request :
  status (app Sample.unreachable (incoming GET "/%zz" ∅)) = 400%Z /\
  status (app Sample.unreachable (incoming POST "/%zz" ∅)) = 400%Z /\
  status (app Sample.unreachable (incoming GET "/caf%C3%A9" ∅)) = 200%Z.
Proof. repeat split. Qed.

Example mounted_strips_the_mount_point :
  req_url (mounted "/api" (incoming GET "/api/management/v1/aps?limit=5" ∅))
  = "/management/v1/aps?limit=5"
  /\ req_url (mounted "/api" (incoming GET "/api?limit=5" ∅)) = "/?limit=5"
  /\ req_url (mounted "/api" (incoming GET "/api//v1" ∅)) = "/v1".
Proof. repeat split. Qed.

Lemma deleteLength_url req : req_url (deleteLength req) = req_url req.
Proof. unfold deleteLength. destruct (_ && _); reflexivity. Qed.

Lemma deleteLength_method req : req_method (deleteLength req) = req_method req.
Proof. unfold deleteLength. destruct (_ && _); reflexivity. Qed.

(** The pass touches [Content-Length] and [Transfer-Encoding] only. *)
Lemma deleteLength_other req name :
  name <> "content-length" -> name <> "transfer-encoding" ->
  req_headers (deleteLength req) !! name = req_headers req !! name.
Proof.
  intros H1 H2. unfold deleteLength. destruct (_ && _); [|reflexivity].
  cbn [req_headers with_headers].
  rewrite lookup_delete_ne by congruence.
  apply lookup_insert_ne. congruence.
Qed.

(** What the callbacks see of a request that came in under the mount is the
    request as it came in, after the first pass of the proxy. *)
Lemma seen_mounted m url hs :
  matches_mount "/api" (pathname url) = true ->
  seen (mounted "/api" (incoming m url hs)) =
  deleteLength (with_url url (mounted "/api" (incoming m url hs))).
Proof.
  intros H. unfold seen. simpl. rewrite (pathRewrite_under_mount _ H). reflexivity.
Qed.

Lemma seen_url m url hs :
  matches_mount "/api" (pathname url) = true ->
  req_url (seen (mounted "/api" (incoming m url hs))) = url.
Proof.
  intros H. rewrite (seen_mounted _ _ _ H), deleteLength_url. reflexivity.
Qed.

Lemma seen_header req name :
  name <> "content-length" -> name <> "transfer-encoding" ->
  req_headers (seen (mounted "/api" req)) !! name = req_headers req !! name.
Proof.
  intros H1 H2. unfold seen. rewrite deleteLength_other by assumption.
  reflexivity.
Qed.

End Routing.

(** ** The liveness endpoint and the catch-all route *)

Section Endpoints.
Import JsString Http Server.



(** C4 as stated fails at [GET /health]: the path does not start with the
    API prefix and is no static file, yet the answer is the liveness JSON,
    not [index.html]. *)
Lemma health_is_not_the_spa_document :
  let e := Sample.unreachable in
  let req := incoming GET "/health" ∅ in
  startsWith "/api" (req_path req) = false /\
  static_file e (req_path req) = StaticMiss /\
  read_file e (index_html e) = FileContent "<!doctype html>" /\
  payload (app e req) <> BodyFile "<!doctype html>".
Proof.
  repeat split. unfold app, run. simpl. discriminate.
Qed.

(** C4, amended: a [GET] request in origin form whose path can be
    decoded, that Express routes neither to the liveness route [/health] nor
    to the [/api] mount, for which [express.static] finds nothing to serve,
    and that carries neither validators nor a byte range, is answered with
    status 200 and the contents of [index.html] (the file being there to
    read). *)
Theorem spa_document_served
    (e : env) (url : string) (hs : gmap string string) (doc : string) :
  origin_form url = true ->
  decodable (pathname url) = true ->
  matches_route "/health" (pathname url) = false ->
  matches_mount "/api" (pathname url) = false ->
  static_file e (pathname url) = StaticMiss ->
  conditional hs = false ->
  bytes_range hs = false ->
  read_file e (index_html e) = FileContent doc ->
  status (app e (incoming GET url hs)) = 200%Z /\
  payload (app e (incoming GET url hs)) = BodyFile doc.
Proof.
  intros _ Hdec Hh Hm Hs Hcond Hrange Hdoc.
  rewrite app_files by (try reflexivity; assumption).
  cbn [run]. unfold static.
  change (req_path (incoming GET url hs)) with (pathname url).
  cbn [req_method incoming method_eqb]. rewrite Hs.
  rewrite catch_all
    by (try reflexivity; apply not_mount_not_api_prefix; exact Hm).
  change (req_path (incoming GET url hs)) with (pathname url).
  rewrite Hdec. unfold sendFile, send.
  rewrite Hdoc, verdict_plain by assumption.
  split; reflexivity.
Qed.

Lemma spa_document_served_dashboard :
  status (app Sample.unreachable (incoming GET "/dashboard/sites" ∅)) = 200%Z /\
  payload (app Sample.unreachable (incoming GET "/dashboard/sites" ∅))
  = BodyFile "<!doctype html>".
Proof.
  exact (spa_document_served Sample.unreachable "/dashboard/sites" ∅
           "<!doctype html>" eq_refl eq_refl eq_refl eq_refl eq_refl eq_refl
           eq_refl eq_refl).
Defined.

Example entry_document_not_modified :
  status (app Sample.unreachable
            (incoming GET "/dashboard/sites" {["if-none-match" := "v1"]}))
  = 304%Z.
Proof. reflexivity. Qed.

(** C5 as stated fails at [GET /api-docs]: the path starts with the API
    prefix and is not under the proxy's mount point, and the answer is the
    SPA entry document with status 200, not a 404. *)
Lemma api_prefix_gets_the_spa_document :
  let e := Sample.unreachable in
  let req := incoming GET "/api-docs" ∅ in
  startsWith "/api" (req_path req) = true /\
  matches_mount "/api" (req_path req) = false /\
  status (app e req) = 200%Z /\
  payload (app e req) = BodyFile "<!doctype html>".
Proof. repeat split. Qed.

(** A request under the [/api] mount is answered by the [cors] package or
    by the proxy. *)
Lemma app_under_mount e m url hs :
  matches_mount "/api" (pathname url) = true ->
  app e (incoming m url hs)
  = {| status := 204; headers := ∅; payload := BodyNone |} \/
  app e (incoming m url hs) = proxy e (mounted "/api" (incoming m url hs)).
Proof.
  intros Hm. destruct (method_eqb m OPTIONS) eqn:Hopt.
  - left. apply app_preflight. apply method_eqb_eq, Hopt.
  - right. apply app_api; [|exact Hm].
    cbn [req_method incoming]. intros ->. discriminate.
Qed.

(** C5, amended: a request under the [/api] mount is never answered with
    the SPA entry document, nor with the 404 body of the catch-all route,
    [{error: 'API endpoint not found'}]: the mount point takes every such
    request before the catch-all route is reached.  A 404 for such a path is
    the upstream's own, relayed with the upstream's payload. *)
Theorem api_not_found
    (e : env) (m : method) (url : string) (hs : gmap string string) :
  matches_mount "/api" (pathname url) = true ->
  (forall doc, payload (app e (incoming m url hs)) <> BodyFile doc) /\
  payload (app e (incoming m url hs))
  <> BodyJson (JObject [("error", JString "API endpoint not found")]) /\
  (status (app e (incoming m url hs)) = 404%Z ->
   exists proxyRes,
     upstream e (forwarded e (mounted "/api" (incoming m url hs)))
     = UpstreamResponse proxyRes /\
     pres_statusCode proxyRes = 404%Z /\
     payload (app e (incoming m url hs)) = BodyUpstream (pres_body proxyRes)).
Proof.
  intros Hm.
  destruct (app_under_mount e m url hs Hm) as [-> | ->].
  - repeat split; try discriminate.
  - unfold proxy.
    destruct (upstream e (forwarded e (mounted "/api" (incoming m url hs))))
      as [proxyRes|err].
    + repeat split; try discriminate.
      cbn [status relay onProxyRes pres_statusCode]. intros Hst.
      exists proxyRes. repeat split. exact Hst.
    + repeat split; try discriminate.
Qed.

Lemma api_not_found_unknown :
  (forall doc,
     payload (app Sample.unreachable (incoming GET "/api/unknown" ∅))
     <> BodyFile doc) /\
  payload (app Sample.unreachable (incoming GET "/api/unknown" ∅))
  <> BodyJson (JObject [("error", JString "API endpoint not found")]) /\
  (status (app Sample.unreachable (incoming GET "/api/unknown" ∅)) = 404%Z ->
   exists proxyRes,
     upstream Sample.unreachable
       (forwarded Sample.unreachable
          (mounted "/api" (incoming GET "/api/unknown" ∅)))
     = UpstreamResponse proxyRes /\
     pres_statusCode proxyRes = 404%Z /\
     payload (app Sample.unreachable (incoming GET "/api/unknown" ∅))
     = BodyUpstream (pres_body proxyRes)).
Proof.
  exact (api_not_found Sample.unreachable GET "/api/unknown" ∅ eq_refl).
Defined.

Example unknown_api_path_upstream_404 :
  let res := app Sample.strict (incoming GET "/api/unknown" ∅) in
  status res = 404%Z /\ payload res = BodyUpstream "no such resource".
Proof. split; reflexivity. Qed.

Example unknown_api_path_answered_by_the_proxy :
  app Sample.unreachable (incoming GET "/api/unknown" ∅)
  = {| status := 500;
       headers := ∅;
       payload := BodyJson (JObject [("error", JString "Proxy Error");
                                     ("message", JString "connect ECONNREFUSED");
                                     ("path", JString "/api/unknown")]) |}.
Proof. reflexivity. Qed.

End Endpoints.

(** ** Cache-Control by asset type *)

Section CacheControl.
Import JsString Http Server.

(** Two endings of one string: one of them is an ending of the other. *)
Lemma endsWith_both x y s :
  endsWith x s = true -> endsWith y s = true ->
  endsWith x y = true \/ endsWith y x = true.
Proof.
  induction s as [|c s IH]; intros Hx Hy.
  - rewrite endsWith_nil in Hx. apply String.eqb_eq in Hx. subst x.
    left. apply endsWith_iff. exists y. clear. induction y as [|a y IHy].
    + reflexivity.
    + rewrite append_cons. f_equal. exact IHy.
  - rewrite endsWith_cons in Hx, Hy.
    apply orb_true_iff in Hx as [Hx|Hx].
    + apply String.eqb_eq in Hx. subst x. right.
      rewrite endsWith_cons. exact Hy.
    + apply orb_true_iff in Hy as [Hy|Hy].
      * apply String.eqb_eq in Hy. subst y. left.
        rewrite endsWith_cons, Hx. apply orb_true_r.
      * apply IH; assumption.
Qed.

(** Endings of which neither ends the other exclude each other. *)
Lemma endsWith_excludes x y s :
  endsWith x y = false -> endsWith y x = false ->
  endsWith x s = true -> endsWith y s = false.
Proof.
  intros Hxy Hyx Hx. destruct (endsWith y s) eqn:Hy; [|reflexivity].
  destruct (endsWith_both _ _ _ Hx Hy); congruence.
Qed.

Lemma matches_extension_excluded x exts s :
  forallb (fun e => negb (endsWith x (String.append "." e)) &&
                    negb (endsWith (String.append "." e) x)) exts = true ->
  endsWith x s = true ->
  matches_extension exts s = false.
Proof.
  unfold matches_extension. intros Hall Hx.
  induction exts as [|e exts IH]; [reflexivity|].
  cbn [forallb] in Hall. apply andb_true_iff in Hall as [He Hall].
  apply andb_true_iff in He as [H1 H2].
  apply negb_true_iff in H1, H2.
  change (existsb (fun e0 => endsWith (String.append "." e0) s) (e :: exts))
    with (endsWith (String.append "." e) s ||
          existsb (fun e0 => endsWith (String.append "." e0) s) exts).
  rewrite (endsWith_excludes _ _ _ H1 H2 Hx), (IH Hall). reflexivity.
Qed.

Lemma matches_extension_member e exts s :
  In e exts -> endsWith (String.append "." e) s = true ->
  matches_extension exts s = true.
Proof.
  unfold matches_extension. intros Hin He.
  apply existsb_exists. exists e. split; assumption.
Qed.

Lemma getHeader_setHeader name value h :
  getHeader name (setHeader name value h) = Some value.
Proof. unfold getHeader, setHeader. apply lookup_insert_eq. Qed.

Lemma getHeader_setHeader_other name name' value h :
  toLowerCase name' <> toLowerCase name ->
  getHeader name (setHeader name' value h) = getHeader name h.
Proof. unfold getHeader, setHeader. intros H. apply lookup_insert_ne, H. Qed.

Lemma setHeaders_html res filePath :
  endsWith ".html" filePath = true ->
  getHeader "Cache-Control" (setHeaders res filePath) = Some "no-cache, no-store, must-revalidate".
Proof.
  intros H. unfold setHeaders. rewrite H.
  rewrite !getHeader_setHeader_other by discriminate.
  apply getHeader_setHeader.
Qed.

Lemma setHeaders_script res filePath e :
  In e ["js"; "css"] ->
  endsWith (String.append "." e) filePath = true ->
  getHeader "Cache-Control" (setHeaders res filePath) = Some "public, max-age=31536000, immutable".
Proof.
  intros Hin H. unfold setHeaders.
  rewrite (endsWith_excludes (String.append "." e) ".html" filePath);
    [ | | | exact H];
    try (simpl in Hin; intuition (subst; reflexivity)).
  rewrite (matches_extension_member _ _ _ Hin H).
  apply getHeader_setHeader.
Qed.

Lemma setHeaders_media res filePath e :
  In e ["jpg"; "jpeg"; "png"; "gif"; "svg"; "ico"; "woff"; "woff2"; "ttf"; "eot"] ->
  endsWith (String.append "." e) filePath = true ->
  getHeader "Cache-Control" (setHeaders res filePath) = Some "public, max-age=604800".
Proof.
  intros Hin H. unfold setHeaders.
  rewrite (endsWith_excludes (String.append "." e) ".html" filePath);
    [ | | | exact H];
    try (simpl in Hin; intuition (subst; reflexivity)).
  rewrite (matches_extension_excluded (String.append "." e) ["js"; "css"] filePath);
    [ | | exact H];
    try (simpl in Hin; intuition (subst; reflexivity)).
  rewrite (matches_extension_member _ _ _ Hin H).
  apply getHeader_setHeader.
Qed.

(** C6: the [Cache-Control] header [setHeaders] writes for a served file
    goes by the ending of its path: [.html] gets the no-cache directives,
    [.js] and [.css] get [public, max-age=31536000, immutable], the image and
    font endings get [public, max-age=604800]; so the header of a [.js] file
    is never the header of an [.html] file such as [index.html]. *)
Theorem cache_control_by_type (res : gmap string string) (filePath : string) :
  (ends_with ".html" filePath ->
   getHeader "Cache-Control" (setHeaders res filePath)
   = Some "no-cache, no-store, must-revalidate") /\
  (ends_with ".js" filePath \/ ends_with ".css" filePath ->
   getHeader "Cache-Control" (setHeaders res filePath)
   = Some "public, max-age=31536000, immutable") /\
  (forall ext,
      In ext ["jpg"; "jpeg"; "png"; "gif"; "svg"; "ico";
              "woff"; "woff2"; "ttf"; "eot"] ->
      ends_with (String.append "." ext) filePath ->
      getHeader "Cache-Control" (setHeaders res filePath)
      = Some "public, max-age=604800") /\
  (ends_with ".js" filePath ->
   forall (res' : gmap string string) (page : string),
     ends_with ".html" page ->
     getHeader "Cache-Control" (setHeaders res filePath)
     <> getHeader "Cache-Control" (setHeaders res' page)).
Proof.
  unfold ends_with. repeat split.
  - intros H. apply endsWith_iff in H. apply setHeaders_html, H.
  - intros [H|H]; apply endsWith_iff in H.
    + apply (setHeaders_script _ _ "js"); [simpl; tauto | exact H].
    + apply (setHeaders_script _ _ "css"); [simpl; tauto | exact H].
  - intros ext Hin H. apply endsWith_iff in H.
    apply (setHeaders_media _ _ ext); assumption.
  - intros H res' page Hpage. apply endsWith_iff in H, Hpage.
    rewrite (setHeaders_script _ _ "js") by (simpl; tauto || exact H).
    rewrite (setHeaders_html _ _ Hpage). discriminate.
Qed.

Example cache_control_bundle :
  getHeader "Cache-Control" (setHeaders ∅ "/srv/build/assets/index-4f2a.js")
  = Some "public, max-age=31536000, immutable".
Proof. reflexivity. Qed.

Example cache_control_index :
  getHeader "Cache-Control" (setHeaders ∅ "/srv/build/index.html")
  = Some "no-cache, no-store, must-revalidate".
Proof. reflexivity. Qed.

Example cache_control_font :
  getHeader "Cache-Control" (setHeaders ∅ "/srv/build/fonts/inter.woff2")
  = Some "public, max-age=604800".
Proof. reflexivity. Qed.

Example cache_control_other :
  getHeader "Cache-Control" (setHeaders ∅ "/srv/build/manifest.json") = None.
Proof. reflexivity. Qed.

End CacheControl.

(** ** The proxy: what is sent upstream and what comes back *)

Section Proxy.
Import JsString Http Server.

Lemma onProxyReq_sets proxyReq req v :
  req_headers req !! "authorization" = Some v ->
  truthy v = true ->
  getHeader "Authorization" (preq_headers (onProxyReq proxyReq req)) = Some v.
Proof.
  intros Hv Ht. unfold onProxyReq. rewrite Hv, Ht.
  apply getHeader_setHeader.
Qed.

Lemma onProxyReq_keeps proxyReq req v :
  req_headers req !! "authorization" = Some v ->
  preq_headers proxyReq !! "authorization" = Some v ->
  getHeader "Authorization" (preq_headers (onProxyReq proxyReq req)) = Some v.
Proof.
  intros Hv Hp. unfold onProxyReq. rewrite Hv.
  destruct (truthy v); [apply getHeader_setHeader | exact Hp].
Qed.

(** [onProxyReq] touches the headers only. *)
Lemma onProxyReq_line proxyReq req :
  preq_target (onProxyReq proxyReq req) = preq_target proxyReq /\
  preq_method (onProxyReq proxyReq req) = preq_method proxyReq /\
  preq_url (onProxyReq proxyReq req) = preq_url proxyReq.
Proof.
  unfold onProxyReq. destruct (req_headers req !! "authorization") as [v|];
    [destruct (truthy v)|]; repeat split.
Qed.

(** C2 as stated fails for a preflight: an [OPTIONS] request under the API
    prefix that carries an [Authorization] header is answered by the [cors]
    package with 204, the same whatever the upstream would say, and is not
    forwarded. *)
Lemma preflight_is_not_forwarded :
  let req := incoming OPTIONS "/api/management/v1/aps"
               {["authorization" := "Bearer abc.def"]} in
  startsWith "/api" (req_path req) = true /\
  req_headers req !! "authorization" = Some "Bearer abc.def" /\
  (forall e, app e req = {| status := 204; headers := ∅; payload := BodyNone |}) /\
  app Sample.reachable req <> proxy Sample.reachable (mounted "/api" req).
Proof.
  repeat split. discriminate.
Qed.

(** C2, amended: of a request under the [/api] mount that is no preflight
    and carries an [Authorization] header, the request the proxy sends goes
    to the configured upstream with the inbound method and carries the very
    [Authorization] value that came in; when the value is not empty,
    [onProxyReq] puts it there itself, whatever the headers of the outgoing
    request were before.  The answer to the inbound request is what that
    outgoing request yields: the upstream's answer relayed, or the answer of
    [onError]. *)
Theorem authorization_forwarded
    (e : env) (m : method) (url : string) (hs : gmap string string) (v : string) :
  m <> OPTIONS ->
  matches_mount "/api" (pathname url) = true ->
  hs !! "authorization" = Some v ->
  let req := mounted "/api" (incoming m url hs) in
  preq_target (forwarded e req) = CAMPUS_CONTROLLER_URL e /\
  preq_method (forwarded e req) = m /\
  getHeader "Authorization" (preq_headers (forwarded e req)) = Some v /\
  (v <> "" ->
   forall proxyReq,
     getHeader "Authorization" (preq_headers (onProxyReq proxyReq (seen req)))
     = Some v) /\
  app e (incoming m url hs)
  = match upstream e (forwarded e req) with
    | UpstreamResponse proxyRes =>
        relay (seen req) (onProxyRes proxyRes (seen req))
    | UpstreamError err => onError err (seen req)
    end.
Proof.
  intros Hopt Hm Hv req.
  assert (Hseen : req_headers (seen req) !! "authorization" = Some v).
  { unfold req. rewrite seen_header by discriminate. exact Hv. }
  destruct (onProxyReq_line (outgoing e (seen req)) (seen req)) as (Ht & Hmeth & _).
  repeat split.
  - unfold forwarded. rewrite Ht. reflexivity.
  - unfold forwarded. rewrite Hmeth. cbn [outgoing preq_method].
    unfold seen. rewrite deleteLength_method. reflexivity.
  - unfold forwarded. apply onProxyReq_keeps; [exact Hseen|].
    unfold outgoing. cbn [preq_headers].
    rewrite !lookup_insert_ne by discriminate. exact Hseen.
  - intros Hne proxyReq. apply onProxyReq_sets; [exact Hseen|].
    unfold truthy. destruct (String.eqb_spec v ""); [contradiction|reflexivity].
  - unfold req. rewrite app_api by assumption. reflexivity.
Qed.

Lemma authorization_forwarded_bearer :
  let req := mounted "/api" (incoming GET "/api/management/v1/aps"
                               {["authorization" := "Bearer abc.def"]}) in
  preq_target (forwarded Sample.reachable req)
  = CAMPUS_CONTROLLER_URL Sample.reachable /\
  preq_method (forwarded Sample.reachable req) = GET /\
  getHeader "Authorization" (preq_headers (forwarded Sample.reachable req))
  = Some "Bearer abc.def" /\
  ("Bearer abc.def" <> "" ->
   forall proxyReq,
     getHeader "Authorization" (preq_headers (onProxyReq proxyReq (seen req)))
     = Some "Bearer abc.def") /\
  app Sample.reachable (incoming GET "/api/management/v1/aps"
                          {["authorization" := "Bearer abc.def"]})
  = match upstream Sample.reachable (forwarded Sample.reachable req) with
    | UpstreamResponse proxyRes =>
        relay (seen req) (onProxyRes proxyRes (seen req))
    | UpstreamError err => onError err (seen req)
    end.
Proof.
  refine (authorization_forwarded Sample.reachable GET "/api/management/v1/aps"
            {["authorization" := "Bearer abc.def"]} "Bearer abc.def"
            _ eq_refl eq_refl).
  discriminate.
Defined.

Example authorization_set_by_onProxyReq :
  getHeader "Authorization"
    (preq_headers
       (onProxyReq {| preq_method := GET;
                      preq_target := "https://controller.example";
                      preq_url := "/x";
                      preq_headers := ∅ |}
                   (incoming GET "/x" {["authorization" := "Bearer abc.def"]})))
  = Some "Bearer abc.def".
Proof. reflexivity. Qed.

Example delete_announces_no_body :
  let out := forwarded Sample.reachable
               (mounted "/api" (incoming DELETE "/api/management/v1/aps/7"
                                  {["transfer-encoding" := "chunked"]})) in
  preq_headers out !! "content-length" = Some "0" /\
  preq_headers out !! "transfer-encoding" = None /\
  preq_headers out !! "connection" = Some "close" /\
  preq_headers out !! "host" = Some "controller.example".
Proof. repeat split. Qed.

(** C3: when the upstream cannot be reached for a request under the
    [/api] mount, the answer is a 500 whose JSON body names the kind of error
    ([error]), carries the error's message ([message]) and the URL the
    request came in with ([path]); the failure ends in this response and in
    nothing else. *)
Theorem upstream_failure_answered
    (e : env) (m : method) (url : string) (hs : gmap string string) (err : error) :
  m <> OPTIONS ->
  matches_mount "/api" (pathname url) = true ->
  upstream e (forwarded e (mounted "/api" (incoming m url hs))) = UpstreamError err ->
  app e (incoming m url hs)
  = {| status := 500;
       headers := ∅;
       payload := BodyJson (JObject [("error", JString "Proxy Error");
                                     ("message", JString (err_message err));
                                     ("path", JString url)]) |}
  /\ (500 <= status (app e (incoming m url hs)) < 600)%Z.
Proof.
  intros Hopt Hm Hup.
  assert (Happ : app e (incoming m url hs)
                 = onError err (seen (mounted "/api" (incoming m url hs)))).
  { rewrite app_api by assumption. unfold proxy. rewrite Hup. reflexivity. }
  rewrite Happ. unfold onError. rewrite (seen_url _ _ _ Hm).
  split; [reflexivity | simpl; lia].
Qed.

Lemma upstream_failure_answered_refused :
  app Sample.unreachable (incoming POST "/api/management/v1/sites?x=1" ∅)
  = {| status := 500;
       headers := ∅;
       payload := BodyJson (JObject [("error", JString "Proxy Error");
                                     ("message", JString "connect ECONNREFUSED");
                                     ("path", JString "/api/management/v1/sites?x=1")]) |}
  /\ (500 <= status (app Sample.unreachable
                       (incoming POST "/api/management/v1/sites?x=1" ∅)) < 600)%Z.
Proof.
  refine (upstream_failure_answered Sample.unreachable POST
            "/api/management/v1/sites?x=1" ∅
            {| err_message := "connect ECONNREFUSED" |} _ eq_refl eq_refl).
  discriminate.
Defined.

End Proxy.

(** ** CORS headers on a relayed response *)

Section Relay.
Import JsString Http Server.

Lemma obj_get_lowercase k (o : obj) :
  lowercase_keys o -> toLowerCase k <> k -> obj_get k o = None.
Proof.
  intros Hall Hk. induction Hall as [|[k' v'] o Hk' _ IH]; [reflexivity|].
  cbn [obj_get]. destruct (String.eqb_spec k' k) as [->|_]; [|exact IH].
  contradiction.
Qed.

Lemma obj_set_absent k v (o : obj) :
  obj_get k o = None -> obj_set k v o = (o ++ [(k, v)])%list.
Proof.
  induction o as [|[k' v'] o IH]; intros H; [reflexivity|].
  cbn [obj_get obj_set] in *. destruct (String.eqb k' k); [discriminate|].
  rewrite (IH H). reflexivity.
Qed.

Lemma obj_get_snoc_other k k' v (o : obj) :
  k' <> k -> obj_get k (o ++ [(k', v)])%list = obj_get k o.
Proof.
  intros Hne. induction o as [|[k0 v0] o IH].
  - cbn [List.app obj_get]. destruct (String.eqb_spec k' k); [contradiction|reflexivity].
  - change (((k0, v0) :: o) ++ [(k', v)])%list with ((k0, v0) :: (o ++ [(k', v)]))%list.
    cbn [obj_get]. rewrite IH. reflexivity.
Qed.

Lemma obj_get_set k v (o : obj) : obj_get k (obj_set k v o) = Some v.
Proof.
  induction o as [|[k' v'] o IH]; cbn [obj_set obj_get].
  - rewrite String.eqb_refl. reflexivity.
  - destruct (String.eqb k' k) eqn:E; cbn [obj_get]; rewrite E; [reflexivity|exact IH].
Qed.

(** What [onProxyRes] leaves in [proxyRes.headers] when the upstream's
    headers have Node's lower-case names: the two new properties come last. *)
Lemma onProxyRes_headers proxyRes req :
  lowercase_keys (pres_headers proxyRes) ->
  pres_headers (onProxyRes proxyRes req)
  = (pres_headers proxyRes
     ++ [("Access-Control-Allow-Origin", or_else (req_headers req !! "origin") "*")]
     ++ [("Access-Control-Allow-Credentials", "true")])%list.
Proof.
  intros Hlow. unfold onProxyRes. cbn [pres_headers].
  rewrite (obj_set_absent "Access-Control-Allow-Origin")
    by (apply obj_get_lowercase; [exact Hlow | discriminate]).
  rewrite obj_set_absent.
  - rewrite <- app_assoc. reflexivity.
  - rewrite obj_get_snoc_other by discriminate.
    apply obj_get_lowercase; [exact Hlow | discriminate].
Qed.

Lemma writeHeaders_snoc (o : obj) k v h :
  writeHeaders (o ++ [(k, v)])%list h = setHeader k v (writeHeaders o h).
Proof. unfold writeHeaders. rewrite fold_left_app. reflexivity. Qed.

Lemma writeHeaders_cons k v (o : obj) h :
  writeHeaders ((k, v) :: o) h = writeHeaders o (setHeader k v h).
Proof. reflexivity. Qed.

(** Writing the same headers onto two responses that agree on a name
    leaves them agreeing on it. *)
Lemma writeHeaders_agree name (o : obj) :
  forall h1 h2,
    getHeader name h1 = getHeader name h2 ->
    getHeader name (writeHeaders o h1) = getHeader name (writeHeaders o h2).
Proof.
  induction o as [|[k v] o IH]; intros h1 h2 H; [exact H|].
  rewrite !writeHeaders_cons. apply IH.
  destruct (String.eqb_spec (toLowerCase k) (toLowerCase name)) as [E|E].
  - unfold getHeader, setHeader. rewrite <- E, !lookup_insert_eq. reflexivity.
  - rewrite !getHeader_setHeader_other by exact E. exact H.
Qed.

(** Setting one property of the header object changes no other header of
    the response. *)
Lemma writeHeaders_obj_set name k v (o : obj) :
  toLowerCase k <> toLowerCase name ->
  forall h,
    getHeader name (writeHeaders (obj_set k v o) h)
    = getHeader name (writeHeaders o h).
Proof.
  intros Hne. induction o as [|[k' v'] o IH]; intros h.
  - cbn. apply getHeader_setHeader_other, Hne.
  - cbn [obj_set]. destruct (String.eqb_spec k' k) as [->|_];
      rewrite !writeHeaders_cons.
    + apply writeHeaders_agree.
      rewrite !getHeader_setHeader_other by exact Hne. reflexivity.
    + apply IH.
Qed.

(** The [Connection] header the relay may add is the only one it adds. *)
Lemma setConnection_other name req proxyRes h :
  toLowerCase name <> "connection" ->
  getHeader name (writeHeaders (pres_headers (setConnection req proxyRes)) h)
  = getHeader name (writeHeaders (pres_headers proxyRes) h).
Proof.
  intros Hne. unfold setConnection.
  destruct (truthy_opt _); [reflexivity|]. cbn [pres_headers].
  apply writeHeaders_obj_set. intros H. apply Hne. symmetry. exact H.
Qed.

Lemma relayed_cors_headers proxyRes req req' :
  lowercase_keys (pres_headers proxyRes) ->
  getHeader "Access-Control-Allow-Origin"
    (headers (relay req' (onProxyRes proxyRes req)))
  = Some (or_else (req_headers req !! "origin") "*") /\
  getHeader "Access-Control-Allow-Credentials"
    (headers (relay req' (onProxyRes proxyRes req))) = Some "true".
Proof.
  intros Hlow. unfold relay. cbn [headers].
  rewrite !setConnection_other by discriminate.
  rewrite (onProxyRes_headers _ _ Hlow), app_assoc, !writeHeaders_snoc. split.
  - rewrite getHeader_setHeader_other by discriminate.
    apply getHeader_setHeader.
  - apply getHeader_setHeader.
Qed.

(** C7 as stated fails for a request whose [Origin] header is there but
    empty: the relayed header is the wildcard, not the header's value. *)
Lemma empty_origin_gets_wildcard :
  let req := incoming GET "/api/management/v1/aps" {["origin" := ""]} in
  req_headers req !! "origin" = Some "" /\
  getHeader "Access-Control-Allow-Origin" (headers (app Sample.reachable req))
  = Some "*" /\
  getHeader "Access-Control-Allow-Origin" (headers (app Sample.reachable req))
  <> req_headers req !! "origin".
Proof. repeat split. discriminate. Qed.

(** C7, amended: on every upstream response the proxy relays for a request
    under the [/api] mount, [Access-Control-Allow-Origin] is the request's
    [Origin] value when that header is there and not empty, and the wildcard
    when it is missing or empty; [Access-Control-Allow-Credentials] is
    [true].  The upstream's headers come under the lower-case names Node
    gives them, and its own values for the two headers do not survive. *)
Theorem cors_headers_relayed
    (e : env) (m : method) (url : string) (hs : gmap string string)
    (proxyRes : proxy_response) :
  m <> OPTIONS ->
  matches_mount "/api" (pathname url) = true ->
  upstream e (forwarded e (mounted "/api" (incoming m url hs)))
  = UpstreamResponse proxyRes ->
  lowercase_keys (pres_headers proxyRes) ->
  (forall origin, hs !! "origin" = Some origin -> origin <> "" ->
     getHeader "Access-Control-Allow-Origin" (headers (app e (incoming m url hs)))
     = Some origin) /\
  (hs !! "origin" = None \/ hs !! "origin" = Some "" ->
     getHeader "Access-Control-Allow-Origin" (headers (app e (incoming m url hs)))
     = Some "*") /\
  getHeader "Access-Control-Allow-Credentials" (headers (app e (incoming m url hs)))
  = Some "true".
Proof.
  intros Hopt Hm Hup Hlow.
  rewrite app_api by assumption. unfold proxy. rewrite Hup.
  destruct (relayed_cors_headers proxyRes
              (seen (mounted "/api" (incoming m url hs)))
              (seen (mounted "/api" (incoming m url hs))) Hlow) as [Ho Hc].
  rewrite Ho, Hc, seen_header by discriminate.
  change (req_headers (incoming m url hs)) with hs.
  repeat split.
  - intros origin -> Hne. unfold or_else, truthy.
    destruct (String.eqb_spec origin ""); [contradiction|reflexivity].
  - intros [-> | ->]; reflexivity.
Qed.

Lemma cors_headers_relayed_console :
  (forall origin,
      ({["origin" := "https://console.example"]} : gmap string string) !! "origin"
      = Some origin -> origin <> "" ->
      getHeader "Access-Control-Allow-Origin"
        (headers (app Sample.reachable
                    (incoming GET "/api/management/v1/aps"
                       {["origin" := "https://console.example"]})))
      = Some origin) /\
  (({["origin" := "https://console.example"]} : gmap string string) !! "origin" = None \/
   ({["origin" := "https://console.example"]} : gmap string string) !! "origin" = Some "" ->
     getHeader "Access-Control-Allow-Origin"
       (headers (app Sample.reachable
                   (incoming GET "/api/management/v1/aps"
                      {["origin" := "https://console.example"]})))
     = Some "*") /\
  getHeader "Access-Control-Allow-Credentials"
    (headers (app Sample.reachable
                (incoming GET "/api/management/v1/aps"
                   {["origin" := "https://console.example"]})))
  = Some "true".
Proof.
  refine (cors_headers_relayed Sample.reachable GET "/api/management/v1/aps"
            {["origin" := "https://console.example"]} _ _ eq_refl eq_refl _).
  - discriminate.
  - repeat constructor.
Defined.

Example cors_header_overrides_upstream :
  getHeader "Access-Control-Allow-Origin"
    (headers (app Sample.reachable
                (incoming GET "/api/management/v1/aps"
                   {["origin" := "https://console.example"]})))
  = Some "https://console.example".
Proof. reflexivity. Qed.

End Relay.

(** ** The client's logout *)

Section Logout.
Import JsString ApiService.

(** The session [logout] leaves behind. *)
Lemma logout_runs BASE_URL net s :
  logout BASE_URL net s
  = (Resolved tt,
     {| accessToken := None;
        refreshToken := None;
        localStorage :=
          delete "admin_role"
            (delete "refresh_token" (delete "access_token" (localStorage s))) |}).
Proof.
  unfold logout, mbind, M_bind, get_state, modify, try_catch, fetch, mret, M_ret.
  destruct (accessToken s) as [token|]; [|reflexivity].
  destruct (truthy token); [|reflexivity].
  destruct (net _); reflexivity.
Qed.

(** C9: however the revocation request ends (a 2xx answer, any other
    answer, a network error) and also when there is no token to revoke,
    [logout] resolves, and afterwards both tokens are [null], the entries
    [access_token], [refresh_token] and [admin_role] are gone from
    [localStorage], and [isAuthenticated] is false. *)
Theorem logout_clears_session
    (BASE_URL : string) (net : network) (s : state) :
  exists s' : state,
    logout BASE_URL net s = (Resolved tt, s') /\
    accessToken s' = None /\
    refreshToken s' = None /\
    localStorage s' !! "access_token" = None /\
    localStorage s' !! "refresh_token" = None /\
    localStorage s' !! "admin_role" = None /\
    isAuthenticated s' = false.
Proof.
  eexists. split; [apply logout_runs|].
  cbn [accessToken refreshToken localStorage isAuthenticated truthy_opt].
  repeat split.
  - rewrite !lookup_delete_ne by discriminate. apply lookup_delete_eq.
  - rewrite lookup_delete_ne by discriminate. apply lookup_delete_eq.
  - apply lookup_delete_eq.
Qed.

Example logout_when_revocation_fails :
  let r := logout "/api/management" (fun _ => Fails "TypeError: Failed to fetch")
                  Sample.signed_in in
  r.1 = Resolved tt /\
  accessToken r.2 = None /\
  localStorage r.2 !! "access_token" = None /\
  localStorage r.2 !! "theme" = Some "dark".
Proof. repeat split. Qed.

Example logout_when_revocation_is_refused :
  (logout "/api/management" (fun _ => Responds 401) Sample.signed_in).1 = Resolved tt.
Proof. reflexivity. Qed.

End Logout.

(** ** Further properties of the stack and the session *)

Section Further.
Import JsString Http Server ApiService.

(** X1: every request whose path starts with [/api/], a preflight apart,
    is answered by the proxy; the 404 branch of the catch-all route is never
    reached through the stack. *)
Theorem api_requests_are_proxied
    (e : env) (m : method) (url : string) (hs : gmap string string) :
  m <> OPTIONS ->
  startsWith "/api/" (pathname url) = true ->
  app e (incoming m url hs) = proxy e (mounted "/api" (incoming m url hs)).
Proof.
  intros Hm Hp. apply app_api; [exact Hm | apply api_prefix_mount, Hp].
Qed.

Lemma api_requests_are_proxied_sites :
  app Sample.reachable (incoming PUT "/api/management/v3/sites/7" ∅)
  = proxy Sample.reachable
      (mounted "/api" (incoming PUT "/api/management/v3/sites/7" ∅)).
Proof.
  refine (api_requests_are_proxied Sample.reachable PUT
            "/api/management/v3/sites/7" ∅ _ eq_refl).
  discriminate.
Defined.

(** X2: [pathRewrite] changes no path that starts with [/api]. *)
Theorem pathRewrite_keeps_api_paths (path : string) :
  startsWith "/api" path = true -> pathRewrite path = path.
Proof.
  intros H. apply pathRewrite_without_prefix.
  apply startsWith_inv in H as [r ->]. reflexivity.
Qed.

Lemma pathRewrite_keeps_api_platformmanager :
  pathRewrite "/api/management/platformmanager/v1/reports"
  = "/api/management/platformmanager/v1/reports".
Proof.
  exact (pathRewrite_keeps_api_paths
           "/api/management/platformmanager/v1/reports" eq_refl).
Defined.

Lemma default_cache_control_present res :
  exists value,
    getHeader "Cache-Control" (default_cache_control res) = Some value /\
    value <> "".
Proof.
  unfold default_cache_control.
  destruct (getHeader "Cache-Control" res) as [value|] eqn:Hcc; cbn [truthy_opt].
  - unfold truthy. destruct (String.eqb_spec value "") as [->|Hne]; cbn [negb].
    + eexists. split; [apply getHeader_setHeader | discriminate].
    + exists value. split; [exact Hcc | exact Hne].
  - eexists. split; [apply getHeader_setHeader | discriminate].
Qed.

(** X3: a [GET] request in origin form outside [/health] and [/api],
    without validators and without a byte range, for which [express.static]
    finds a file, is answered with 200 and the whole file; the headers are
    those [setHeaders] writes for the file's path, with the library's
    [Cache-Control: public, max-age=0] where [setHeaders] writes none, so
    that every file goes out with a [Cache-Control] header. *)
Theorem static_asset_served
    (e : env) (url : string) (hs : gmap string string)
    (filePath content : string) :
  origin_form url = true ->
  matches_route "/health" (pathname url) = false ->
  matches_mount "/api" (pathname url) = false ->
  static_file e (pathname url) = StaticFile filePath content ->
  conditional hs = false ->
  bytes_range hs = false ->
  app e (incoming GET url hs)
  = {| status := 200;
       headers := default_cache_control (setHeaders ∅ filePath);
       payload := BodyFile content |} /\
  (forall value,
      getHeader "Cache-Control" (setHeaders ∅ filePath) = Some value ->
      value <> "" ->
      getHeader "Cache-Control" (headers (app e (incoming GET url hs)))
      = Some value) /\
  (getHeader "Cache-Control" (setHeaders ∅ filePath) = None ->
   getHeader "Cache-Control" (headers (app e (incoming GET url hs)))
   = Some "public, max-age=0").
Proof.
  intros _ Hh Hm Hs Hcond Hrange.
  assert (Happ : app e (incoming GET url hs)
                 = {| status := 200;
                      headers := default_cache_control (setHeaders ∅ filePath);
                      payload := BodyFile content |}).
  { rewrite app_files by (try reflexivity; assumption).
    cbn [run]. unfold static.
    change (req_path (incoming GET url hs)) with (pathname url).
    cbn [req_method incoming method_eqb]. rewrite Hs. unfold send.
    rewrite verdict_plain by assumption. reflexivity. }
  rewrite Happ. cbn [headers]. repeat split.
  - intros value Hcc Hne. unfold default_cache_control. rewrite Hcc.
    cbn [truthy_opt]. unfold truthy.
    destruct (String.eqb_spec value ""); [contradiction|exact Hcc].
  - intros Hcc. unfold default_cache_control. rewrite Hcc.
    apply getHeader_setHeader.
Qed.

Lemma static_asset_served_bundle :
  app Sample.unreachable (incoming GET "/assets/app.js?v=3" ∅)
  = {| status := 200;
       headers := default_cache_control (setHeaders ∅ "/srv/build/assets/app.js");
       payload := BodyFile "console.log(1)" |} /\
  (forall value,
      getHeader "Cache-Control" (setHeaders ∅ "/srv/build/assets/app.js")
      = Some value ->
      value <> "" ->
      getHeader "Cache-Control"
        (headers (app Sample.unreachable (incoming GET "/assets/app.js?v=3" ∅)))
      = Some value) /\
  (getHeader "Cache-Control" (setHeaders ∅ "/srv/build/assets/app.js") = None ->
   getHeader "Cache-Control"
     (headers (app Sample.unreachable (incoming GET "/assets/app.js?v=3" ∅)))
   = Some "public, max-age=0").
Proof.
  exact (static_asset_served Sample.unreachable "/assets/app.js?v=3" ∅
           "/srv/build/assets/app.js" "console.log(1)"
           eq_refl eq_refl eq_refl eq_refl eq_refl eq_refl).
Defined.

Example static_asset_not_modified :
  let res := app Sample.unreachable
               (incoming GET "/assets/app.js" {["if-none-match" := "v1"]}) in
  status res = 304%Z /\ payload res = BodyNone /\
  getHeader "Cache-Control" (headers res)
  = Some "public, max-age=31536000, immutable".
Proof. repeat split. Qed.

(** X4: [logout] leaves every other entry of [localStorage] as it was. *)
Theorem logout_keeps_other_entries
    (BASE_URL : string) (net : network) (s : state) (key : string) :
  key <> "access_token" -> key <> "refresh_token" -> key <> "admin_role" ->
  localStorage (logout BASE_URL net s).2 !! key = localStorage s !! key.
Proof.
  intros H1 H2 H3. rewrite logout_runs. cbn [snd localStorage].
  rewrite !lookup_delete_ne by congruence. reflexivity.
Qed.

Lemma logout_keeps_theme :
  localStorage
    (logout "/api/management" (fun _ => Responds 204) Sample.signed_in).2
    !! "theme"
  = localStorage Sample.signed_in !! "theme".
Proof.
  refine (logout_keeps_other_entries "/api/management" (fun _ => Responds 204)
            Sample.signed_in "theme" _ _ _); discriminate.
Defined.

End Further.

(** ** More on the server: what is passed on untouched *)

Section ServerFrame.
Import JsString Http Server.

Lemma obj_get_absent k (o : obj) :
  k ∉ map fst o -> obj_get k o = None.
Proof.
  induction o as [|[k' v'] o IH]; intros H; [reflexivity|].
  cbn [map fst] in H. apply not_elem_of_cons in H as [Hne H].
  cbn [obj_get]. destruct (String.eqb_spec k' k) as [->|_];
    [contradiction | exact (IH H)].
Qed.

(** The headers written from an object with lower-case, distinct names are
    the object's properties. *)
Lemma writeHeaders_lookup name (o : obj) :
  lowercase_keys o -> distinct_keys o ->
  forall h,
    getHeader name (writeHeaders o h)
    = match obj_get (toLowerCase name) o with
      | Some v => Some v
      | None => getHeader name h
      end.
Proof.
  unfold distinct_keys. intros Hlow Hdis.
  induction Hlow as [|[k v] o Hk _ IH]; intros h; [reflexivity|].
  cbn [fst] in Hk. cbn [map fst] in Hdis. apply NoDup_cons in Hdis as [Hnew Hdis].
  rewrite writeHeaders_cons, (IH Hdis). cbn [obj_get].
  destruct (String.eqb_spec k (toLowerCase name)) as [E|E].
  - rewrite <- E, (obj_get_absent _ _ Hnew).
    unfold getHeader, setHeader. rewrite Hk, <- E. apply lookup_insert_eq.
  - destruct (obj_get (toLowerCase name) o); [reflexivity|].
    apply getHeader_setHeader_other. rewrite Hk. exact E.
Qed.

Lemma obj_get_lowercase_key k v (o : obj) :
  lowercase_keys o -> obj_get k o = Some v -> toLowerCase k = k.
Proof.
  intros Hlow. induction Hlow as [|[k' v'] o Hk' _ IH]; [discriminate|].
  cbn [obj_get]. destruct (String.eqb_spec k' k) as [<-|_]; [|exact IH].
  intros _. exact Hk'.
Qed.

(** X16: an upstream answer is handed on: the status (a 4xx or 5xx like
    any other), the payload, and every header the upstream sent, each with
    its value, the two CORS headers the proxy writes itself and the
    [Connection] header of the proxy library apart. *)
Theorem upstream_answer_relayed
    (e : env) (m : method) (url : string) (hs : gmap string string)
    (proxyRes : proxy_response) :
  m <> OPTIONS ->
  matches_mount "/api" (pathname url) = true ->
  upstream e (forwarded e (mounted "/api" (incoming m url hs)))
  = UpstreamResponse proxyRes ->
  lowercase_keys (pres_headers proxyRes) ->
  distinct_keys (pres_headers proxyRes) ->
  status (app e (incoming m url hs)) = pres_statusCode proxyRes /\
  payload (app e (incoming m url hs)) = BodyUpstream (pres_body proxyRes) /\
  forall name value,
    obj_get name (pres_headers proxyRes) = Some value ->
    name <> "access-control-allow-origin" ->
    name <> "access-control-allow-credentials" ->
    name <> "connection" ->
    getHeader name (headers (app e (incoming m url hs))) = Some value.
Proof.
  intros Hopt Hm Hup Hlow Hdis.
  rewrite app_api by assumption. unfold proxy. rewrite Hup.
  split; [reflexivity|]. split; [reflexivity|].
  intros name value Hget H1 H2 H3.
  pose proof (obj_get_lowercase_key _ _ _ Hlow Hget) as Hname.
  unfold relay. cbn [headers].
  rewrite setConnection_other by (rewrite Hname; exact H3).
  rewrite (onProxyRes_headers _ _ Hlow), app_assoc, !writeHeaders_snoc.
  rewrite !getHeader_setHeader_other.
  - rewrite (writeHeaders_lookup _ _ Hlow Hdis), Hname, Hget. reflexivity.
  - rewrite Hname. intros H. apply H1. symmetry. exact H.
  - rewrite Hname. intros H. apply H2. symmetry. exact H.
Qed.

Lemma upstream_answer_relayed_sample :
  status (app Sample.reachable (incoming GET "/api/management/v1/aps" ∅))
  = pres_statusCode
      {| pres_statusCode := 200;
         pres_headers := [("content-type", "application/json");
                          ("access-control-allow-origin", "https://elsewhere.example")];
         pres_body := "[]" |} /\
  payload (app Sample.reachable (incoming GET "/api/management/v1/aps" ∅))
  = BodyUpstream
      (pres_body
         {| pres_statusCode := 200;
            pres_headers := [("content-type", "application/json");
                             ("access-control-allow-origin", "https://elsewhere.example")];
            pres_body := "[]" |}) /\
  forall name value,
    obj_get name
      (pres_headers
         {| pres_statusCode := 200;
            pres_headers := [("content-type", "application/json");
                             ("access-control-allow-origin",
                              "https://elsewhere.example")];
            pres_body := "[]" |})
    = Some value ->
    name <> "access-control-allow-origin" ->
    name <> "access-control-allow-credentials" ->
    name <> "connection" ->
    getHeader name
      (headers (app Sample.reachable (incoming GET "/api/management/v1/aps" ∅)))
    = Some value.
Proof.
  refine (upstream_answer_relayed Sample.reachable GET "/api/management/v1/aps" ∅
            _ _ eq_refl eq_refl _ _).
  - discriminate.
  - repeat constructor.
  - unfold distinct_keys. cbn [map fst pres_headers].
    apply NoDup_cons. split; [|apply NoDup_singleton].
    intros H. apply list_elem_of_singleton in H. discriminate.
Defined.

Example content_type_relayed :
  getHeader "Content-Type"
    (headers (app Sample.reachable (incoming GET "/api/management/v1/aps" ∅)))
  = Some "application/json".
Proof. reflexivity. Qed.

Example connection_filled_in :
  getHeader "Connection"
    (headers (app Sample.reachable (incoming GET "/api/management/v1/aps" ∅)))
  = Some "keep-alive".
Proof. reflexivity. Qed.

(** X17: [setHeaders] writes [Cache-Control], and for [.html] files
    [Pragma] and [Expires], and nothing else: every other header of the
    response stays as it was, [Pragma] and [Expires] stay for a file that
    does not end in [.html], and a path with none of the thirteen endings
    leaves the response untouched. *)
Theorem setHeaders_frame (res : gmap string string) (filePath : string) :
  (forall name,
      toLowerCase name <> "cache-control" ->
      toLowerCase name <> "pragma" ->
      toLowerCase name <> "expires" ->
      getHeader name (setHeaders res filePath) = getHeader name res) /\
  (~ ends_with ".html" filePath ->
   getHeader "Pragma" (setHeaders res filePath) = getHeader "Pragma" res /\
   getHeader "Expires" (setHeaders res filePath) = getHeader "Expires" res) /\
  ((forall ext,
       In ext ["html"; "js"; "css"; "jpg"; "jpeg"; "png"; "gif"; "svg"; "ico";
               "woff"; "woff2"; "ttf"; "eot"] ->
       ~ ends_with (String.append "." ext) filePath) ->
   setHeaders res filePath = res).
Proof.
  repeat split.
  - intros name H1 H2 H3. unfold setHeaders.
    destruct (endsWith ".html" filePath);
      [|destruct (matches_extension _ filePath);
        [|destruct (matches_extension _ filePath)]];
      rewrite ?getHeader_setHeader_other; try reflexivity;
      intros H;
      first [ apply H1; rewrite <- H; reflexivity
            | apply H2; rewrite <- H; reflexivity
            | apply H3; rewrite <- H; reflexivity ].
  - unfold setHeaders.
    assert (Hh : endsWith ".html" filePath = false).
    { destruct (endsWith ".html" filePath) eqn:E; [|reflexivity].
      exfalso. apply H. apply endsWith_iff, E. }
    rewrite Hh.
    destruct (matches_extension _ filePath);
      [|destruct (matches_extension _ filePath)];
      rewrite ?getHeader_setHeader_other by discriminate; reflexivity.
  - unfold setHeaders.
    assert (Hh : endsWith ".html" filePath = false).
    { destruct (endsWith ".html" filePath) eqn:E; [|reflexivity].
      exfalso. apply H. apply endsWith_iff, E. }
    rewrite Hh.
    destruct (matches_extension _ filePath);
      [|destruct (matches_extension _ filePath)];
      rewrite ?getHeader_setHeader_other by discriminate; reflexivity.
  - intros Hnone. unfold setHeaders.
    assert (Hno : forall ext,
               In ext ["html"; "js"; "css"; "jpg"; "jpeg"; "png"; "gif"; "svg";
                       "ico"; "woff"; "woff2"; "ttf"; "eot"] ->
               endsWith (String.append "." ext) filePath = false).
    { intros ext Hin.
      destruct (endsWith (String.append "." ext) filePath) eqn:E; [|reflexivity].
      exfalso. apply (Hnone ext Hin). apply endsWith_iff, E. }
    pose proof (Hno "html" ltac:(cbn; tauto)) as Hh.
    change (String.append "." "html") with ".html" in Hh. rewrite Hh.
    unfold matches_extension. cbn [existsb].
    rewrite !Hno by (cbn; tauto). reflexivity.
Qed.

Example setHeaders_upper_case_ending :
  setHeaders ∅ "/srv/build/assets/APP.JS" = ∅.
Proof. reflexivity. Qed.

Lemma uncacheable_set res :
  uncacheable
    (setHeader "Expires" "0"
       (setHeader "Pragma" "no-cache"
          (setHeader "Cache-Control" "no-cache, no-store, must-revalidate" res))).
Proof.
  unfold uncacheable. repeat split.
  - rewrite !getHeader_setHeader_other by discriminate. apply getHeader_setHeader.
  - rewrite getHeader_setHeader_other by discriminate. apply getHeader_setHeader.
  - apply getHeader_setHeader.
Qed.

Lemma uncacheable_default res :
  uncacheable res -> default_cache_control res = res.
Proof.
  intros [Hcc _]. unfold default_cache_control. rewrite Hcc. reflexivity.
Qed.

(** Whatever becomes of a file sent onto an uncacheable response (the
    file, a 304, a range, an error page), the response stays uncacheable. *)
Lemma send_uncacheable e req filePath content res stack :
  uncacheable res ->
  uncacheable
    (headers match send e req filePath content res with
             | Done r => r
             | Next res' => run stack e req res'
             | NextError st res' => final_handler st res'
             end).
Proof.
  intros Hres. unfold send. rewrite (uncacheable_default _ Hres).
  destruct (verdict e req filePath); exact Hres.
Qed.

(** X18: every response the server makes of an HTML document outside
    [/health] and [/api] goes out uncacheable, with [Cache-Control: no-cache,
    no-store, must-revalidate], [Pragma: no-cache] and [Expires: 0]: what the
    catch-all route answers when [express.static] has found nothing (the
    entry document, and also a 304, a range of it or the error page for a
    missing [index.html]), as well as what is answered when [express.static]
    has found a file ending in [.html]. *)
Theorem html_is_never_cached
    (e : env) (url : string) (hs : gmap string string) :
  origin_form url = true ->
  matches_route "/health" (pathname url) = false ->
  matches_mount "/api" (pathname url) = false ->
  (static_file e (pathname url) = StaticMiss /\ decodable (pathname url) = true \/
   exists filePath content,
     static_file e (pathname url) = StaticFile filePath content /\
     ends_with ".html" filePath) ->
  getHeader "Cache-Control" (headers (app e (incoming GET url hs)))
  = Some "no-cache, no-store, must-revalidate" /\
  getHeader "Pragma" (headers (app e (incoming GET url hs))) = Some "no-cache" /\
  getHeader "Expires" (headers (app e (incoming GET url hs))) = Some "0".
Proof.
  intros _ Hh Hm Hcase.
  assert (Hapi : startsWith "/api/" (req_path (incoming GET url hs)) = false)
    by (apply not_mount_not_api_prefix; exact Hm).
  change (uncacheable (headers (app e (incoming GET url hs)))).
  rewrite app_files by (try reflexivity; assumption).
  change (run [static; get "*" spa_fallback] e (incoming GET url hs) ∅)
    with (match static e (incoming GET url hs) ∅ with
          | Done r => r
          | Next res' => run [get "*" spa_fallback] e (incoming GET url hs) res'
          | NextError st res' => final_handler st res'
          end).
  unfold static.
  change (req_path (incoming GET url hs)) with (pathname url) at 1.
  cbn [req_method incoming method_eqb].
  destruct Hcase as [[Hs Hdec] | (filePath & content & Hs & Hhtml)]; rewrite Hs.
  - cbn [run]. rewrite catch_all by (reflexivity || exact Hapi).
    change (req_path (incoming GET url hs)) with (pathname url).
    rewrite Hdec. unfold sendFile.
    destruct (read_file e (index_html e)) as [content|st].
    + apply (send_uncacheable _ _ _ _ _ []), uncacheable_set.
    + apply uncacheable_set.
  - apply send_uncacheable. unfold setHeaders.
    apply endsWith_iff in Hhtml. rewrite Hhtml. apply uncacheable_set.
Qed.

Lemma html_is_never_cached_sample :
  getHeader "Cache-Control"
    (headers (app Sample.unreachable (incoming GET "/sites/12" ∅)))
  = Some "no-cache, no-store, must-revalidate" /\
  getHeader "Pragma" (headers (app Sample.unreachable (incoming GET "/sites/12" ∅)))
  = Some "no-cache" /\
  getHeader "Expires" (headers (app Sample.unreachable (incoming GET "/sites/12" ∅)))
  = Some "0".
Proof.
  refine (html_is_never_cached Sample.unreachable "/sites/12" ∅
            eq_refl eq_refl eq_refl _).
  left. split; reflexivity.
Defined.

(** X19: outside [/api] only [GET] is served: a [POST], [PUT], [DELETE]
    or [PATCH] in origin form is answered neither with a static file nor
    with the entry document but by Express's own error page, whatever the
    build directory holds: with 404, or with 400 when the path cannot be
    decoded. *)
Theorem only_get_is_served
    (e : env) (m : method) (url : string) (hs : gmap string string) :
  origin_form url = true ->
  m <> GET ->
  m <> OPTIONS ->
  matches_mount "/api" (pathname url) = false ->
  app e (incoming m url hs)
  = final_handler (if decodable (pathname url) then 404 else 400) ∅ /\
  payload (app e (incoming m url hs)) = BodyFinalHandler /\
  (status (app e (incoming m url hs)) = 404%Z \/
   status (app e (incoming m url hs)) = 400%Z).
Proof.
  intros _ Hget Hopt Hm.
  rewrite app_no_handler by assumption.
  change (req_path (incoming m url hs)) with (pathname url).
  repeat split. destruct (decodable (pathname url)); [left|right]; reflexivity.
Qed.

Lemma only_get_is_served_sample :
  app Sample.unreachable (incoming DELETE "/assets/app.js" ∅)
  = final_handler (if decodable (pathname "/assets/app.js") then 404 else 400) ∅ /\
  payload (app Sample.unreachable (incoming DELETE "/assets/app.js" ∅))
  = BodyFinalHandler /\
  (status (app Sample.unreachable (incoming DELETE "/assets/app.js" ∅)) = 404%Z \/
   status (app Sample.unreachable (incoming DELETE "/assets/app.js" ∅)) = 400%Z).
Proof.
  refine (only_get_is_served Sample.unreachable DELETE "/assets/app.js" ∅
            eq_refl _ _ eq_refl); discriminate.
Defined.

End ServerFrame.

(** ** The client's session: login, reload, refresh *)

Section Client.
Import JsString Http ApiService ApiClient.

Ltac async_unfold :=
  unfold store, ApiClient.try_catch, mbind, Async_bind,
    ApiClient.fetch, await, untyped, update, throw, get_session, mret,
    Async_ret, with_session.

Ltac async_step :=
  lazy beta iota zeta delta [negb]; cbn [session sent logout_pending].

(** What [login] ends in: a grant the network sent, stored; or an exception,
    with the session as it was; or, after a 2xx answer that is no grant,
    something that is no [AuthResponse]. *)
Lemma login_runs BASE_URL parse net userId password w :
  match login BASE_URL parse net userId password w with
  | (Returns a, w') =>
      (exists response,
          net (length (sent w)) = Resolves response /\
          ok response = true /\
          res_json response = Read a) /\
      session w' =
        setItem "admin_role" (adminRole a)
          (setItem "refresh_token" (refresh_token a)
             (setItem "access_token" (access_token a)
                (set_refreshToken (Some (refresh_token a))
                   (set_accessToken (Some (access_token a)) (session w)))))
  | (Throws _, w') => session w' = session w
  | (Unsettled, _) => False
  | (Untyped, w') =>
      session w' = session w \/
      exists response found,
        net (length (sent w)) = Resolves response /\
        ok response = true /\
        res_json response = ReadOther found
  end.
Proof.
  unfold login. async_unfold.
  destruct (truthy (trim userId)); async_step; [|reflexivity].
  destruct (truthy (trim password)); async_step; [|reflexivity].
  destruct (net (length (sent w))) as [response|err]; async_step.
  - destruct (ok response) eqn:Hok; async_step.
    + destruct (res_json response) as [a|err|found] eqn:Hjson; async_step.
      * split; [|reflexivity]. exists response. repeat split; assumption.
      * destruct (includes _ _); reflexivity.
      * destruct (found_access_token found), (found_refresh_token found),
          (found_adminRole found); async_step;
          right; exists response, found; repeat split; assumption.
    + destruct (res_text response) as [text|err|found]; async_step;
        try (destruct (includes _ _)); try reflexivity.
      left. reflexivity.
  - destruct (includes _ _); reflexivity.
Qed.




Example login_granted :
  (login "/api/management" SampleClient.no_detail
         (SampleClient.always SampleClient.grant) " admin " "secret"
         SampleClient.fresh).1
  = Returns SampleClient.granted.
Proof. reflexivity. Qed.

Example login_offline :
  login "/api/management" SampleClient.no_detail SampleClient.offline
        "admin" "secret" SampleClient.fresh
  = (Throws (Error "Cannot connect to server - please check your network connection"),
     {| session := session SampleClient.fresh;
        sent := sent (login "/api/management" SampleClient.no_detail
                        SampleClient.offline "admin" "secret"
                        SampleClient.fresh).2;
        logout_pending := false |}).
Proof. reflexivity. Qed.

(** X6: the session of a login that returned a grant (an [AuthResponse]:
    strings for the tokens and the role) survives a reload of the page: a
    service constructed from the [localStorage] it left is in the very state
    the login left, and [getAdminRole] gives the granted role. *)
Theorem login_survives_reload
    (BASE_URL : string) (parse : string -> server_error) (net : script)
    (userId password : string) (w w' : world) (a : AuthResponse) :
  login BASE_URL parse net userId password w = (Returns a, w') ->
  constructor (localStorage (session w')) = session w' /\
  getAdminRole (session w') = Some (adminRole a).
Proof.
  intros Hlogin.
  pose proof (login_runs BASE_URL parse net userId password w) as H.
  rewrite Hlogin in H. destruct H as [_ H]. rewrite H.
  unfold constructor, getAdminRole, setItem, set_refreshToken, set_accessToken.
  cbn [accessToken refreshToken localStorage]. split.
  - f_equal.
    + rewrite !lookup_insert_ne by discriminate. apply lookup_insert_eq.
    + rewrite lookup_insert_ne by discriminate. apply lookup_insert_eq.
  - apply lookup_insert_eq.
Qed.

Lemma login_survives_reload_granted :
  constructor
    (localStorage
       (session (login "/api/management" SampleClient.no_detail
                   (SampleClient.always SampleClient.grant) "admin" "secret"
                   SampleClient.fresh).2))
  = session (login "/api/management" SampleClient.no_detail
               (SampleClient.always SampleClient.grant) "admin" "secret"
               SampleClient.fresh).2 /\
  getAdminRole
    (session (login "/api/management" SampleClient.no_detail
                (SampleClient.always SampleClient.grant) "admin" "secret"
                SampleClient.fresh).2)
  = Some "FULL".
Proof.
  exact (login_survives_reload "/api/management" SampleClient.no_detail
           (SampleClient.always SampleClient.grant) "admin" "secret"
           SampleClient.fresh _ SampleClient.granted eq_refl).
Defined.

(** X7: [login] sends at most one request: a [POST] to
    [BASE_URL/v1/oauth2/token] whose body carries the trimmed user id and
    the password as typed; when the user id or the password is blank it
    sends none and throws. *)
Theorem login_sends
    (BASE_URL : string) (parse : string -> server_error) (net : script)
    (userId password : string) (w : world) :
  (trim userId = "" \/ trim password = "" ->
   exists err, login BASE_URL parse net userId password w = (Throws err, w)) /\
  (sent (login BASE_URL parse net userId password w).2 = sent w \/
   sent (login BASE_URL parse net userId password w).2
   = (sent w ++
      [{| init_url := String.append BASE_URL "/v1/oauth2/token";
          init_method := Some "POST";
          init_headers := {["Content-Type" := "application/json";
                            "Accept" := "application/json"]};
          init_body :=
            Stringified
              (JObject [("grant_type", JString "password");
                        ("username", JString (trim userId));
                        ("password", JString password);
                        ("scope", JString "")]) |}])%list).
Proof.
  split.
  - intros Hblank. unfold login.
    destruct (truthy (trim userId)) eqn:Hu; cbn [negb].
    + destruct Hblank as [H|H]; [rewrite H in Hu; discriminate|].
      rewrite H. cbn. eexists. reflexivity.
    + eexists. reflexivity.
  - unfold login. async_unfold.
    destruct (truthy (trim userId)); async_step; [|left; reflexivity].
    destruct (truthy (trim password)); async_step; [|left; reflexivity].
    right.
    destruct (net (length (sent w))) as [response|err]; async_step.
    + destruct (ok response); async_step.
      * destruct (res_json response) as [a|err|found]; async_step;
          try (destruct (includes _ _));
          try (destruct (found_access_token found),
                 (found_refresh_token found), (found_adminRole found));
          reflexivity.
      * destruct (res_text response) as [text|err|found]; async_step;
          try (destruct (includes _ _)); reflexivity.
    + destruct (includes _ _); reflexivity.
Qed.

Example login_blank_password :
  login "/api/management" SampleClient.no_detail
        (SampleClient.always SampleClient.grant) "admin" "   " SampleClient.fresh
  = (Throws (Error "Password is required"), SampleClient.fresh).
Proof. reflexivity. Qed.

(** X8: what the user is told when the controller refuses the login with
    a response that is not ok and whose text can be read.  Without a message
    in the text the rejection reads [Authentication failed]; a message the
    controller gives is handed on behind [Login error: ], unless it contains
    [Authentication failed] or [fetch].  On a 401 the hint about the
    credentials is appended in both cases. *)
Theorem login_refused_message
    (BASE_URL : string) (parse : string -> server_error) (net : script)
    (userId password : string) (w : world)
    (response : Response) (errorText : string) :
  truthy (trim userId) = true ->
  truthy (trim password) = true ->
  net (length (sent w)) = Resolves response ->
  ok response = false ->
  res_text response = Read errorText ->
  let hint :=
    if (res_status response =? 401)%Z then credentials_hint else "" in
  (parse errorText = NoMessage ->
   (login BASE_URL parse net userId password w).1
   = Throws (Error (String.append "Authentication failed" hint))) /\
  (forall m,
      parse errorText = Message m ->
      includes "Authentication failed" (String.append m hint) = false ->
      includes "fetch" (String.append m hint) = false ->
      (login BASE_URL parse net userId password w).1
      = Throws (Error (String.append "Login error: " (String.append m hint)))).
Proof.
  intros Hu Hp Hnet Hok Htext hint. subst hint.
  assert (Hnil : forall s, String.append s "" = s).
  { induction s as [|c s IH]; [reflexivity|]. rewrite append_cons, IH. reflexivity. }
  split.
  - intros Hparse. unfold login. async_unfold.
    rewrite Hu, Hp. async_step. rewrite Hnet. async_step.
    rewrite Hok, Htext. async_step. rewrite Hparse.
    destruct (res_status response =? 401)%Z; cbn [fst error_message Error].
    + rewrite includes_here by apply startsWith_app. reflexivity.
    + rewrite Hnil. reflexivity.
  - intros m Hparse Haf Hfetch. unfold login. async_unfold.
    rewrite Hu, Hp. async_step. rewrite Hnet. async_step.
    rewrite Hok, Htext. async_step. rewrite Hparse.
    destruct (res_status response =? 401)%Z; cbn [fst error_message Error error_name].
    + rewrite Haf, Hfetch. reflexivity.
    + rewrite Hnil in Haf, Hfetch. rewrite Hnil, Haf, Hfetch. reflexivity.
Qed.

Lemma login_refused_message_locked :
  let hint :=
    if (res_status (SampleClient.answer 403 "Forbidden" "Account locked") =? 401)%Z
    then credentials_hint else "" in
  (SampleClient.detail "Account locked" = NoMessage ->
   (login "/api/management" SampleClient.detail
          (SampleClient.always (SampleClient.answer 403 "Forbidden" "Account locked"))
          "admin" "secret" SampleClient.fresh).1
   = Throws (Error (String.append "Authentication failed" hint))) /\
  (forall m,
      SampleClient.detail "Account locked" = Message m ->
      includes "Authentication failed" (String.append m hint) = false ->
      includes "fetch" (String.append m hint) = false ->
      (login "/api/management" SampleClient.detail
             (SampleClient.always (SampleClient.answer 403 "Forbidden" "Account locked"))
             "admin" "secret" SampleClient.fresh).1
      = Throws (Error (String.append "Login error: " (String.append m hint)))).
Proof.
  exact (login_refused_message "/api/management" SampleClient.detail
           (SampleClient.always (SampleClient.answer 403 "Forbidden" "Account locked"))
           "admin" "secret" SampleClient.fresh
           (SampleClient.answer 403 "Forbidden" "Account locked") "Account locked"
           eq_refl eq_refl eq_refl eq_refl eq_refl).
Defined.

Example login_refused_locked :
  (login "/api/management" SampleClient.detail
         (SampleClient.always (SampleClient.answer 403 "Forbidden" "Account locked"))
         "admin" "secret" SampleClient.fresh).1
  = Throws (Error "Login error: Account locked").
Proof. reflexivity. Qed.



Example refresh_granted :
  let w' := (refreshAccessToken "/api/management"
               (SampleClient.always SampleClient.grant) SampleClient.logged_in).2 in
  accessToken (session w') = Some "new-access" /\
  getAdminRole (session w') = Some "FULL" /\
  localStorage (session w') !! "theme" = Some "dark".
Proof. repeat split. Qed.

Example refresh_refused :
  refreshAccessToken "/api/management"
    (SampleClient.always (SampleClient.answer 400 "Bad Request" ""))
    SampleClient.logged_in
  = (Throws (Error "Token refresh failed"),
     {| session := session SampleClient.logged_in;
        sent := sent (refreshAccessToken "/api/management"
                        (SampleClient.always (SampleClient.answer 400 "Bad Request" ""))
                        SampleClient.logged_in).2;
        logout_pending := false |}).
Proof. reflexivity. Qed.


(** X10: [testConnectivity] never throws and never touches the session.
    It sends one [OPTIONS] request and reports success exactly when that
    request is answered with a 2xx status or with 405; a network error, a
    timeout and every other status are reported as failure. *)
Theorem testConnectivity_verdict (BASE_URL : string) (net : script) (w : world) :
  exists (success : bool) (message : string),
    (testConnectivity BASE_URL net w).1 = Returns (success, message) /\
    session (testConnectivity BASE_URL net w).2 = session w /\
    sent (testConnectivity BASE_URL net w).2
    = (sent w ++
       [{| init_url := String.append BASE_URL "/v1/oauth2/token";
           init_method := Some "OPTIONS";
           init_headers := {["Accept" := "application/json"]};
           init_body := NoBody |}])%list /\
    (success = true <->
     exists response,
       net (length (sent w)) = Resolves response /\
       ((200 <= res_status response <= 299)%Z \/ res_status response = 405%Z)).
Proof.
  unfold testConnectivity. async_unfold. async_step.
  destruct (net (length (sent w))) as [response|err] eqn:Hnet; async_step.
  - destruct (ok response || (res_status response =? 405)%Z) eqn:Hv; async_step.
    + eexists _, _. repeat split; try reflexivity.
      exists response. split; [reflexivity|].
      apply orb_true_iff in Hv as [Hv|Hv].
      * left. unfold ok in Hv. apply andb_true_iff in Hv as [H1 H2].
        apply Z.leb_le in H1, H2. lia.
      * right. apply Z.eqb_eq, Hv.
    + eexists _, _. repeat split; try reflexivity; try discriminate.
      intros (response' & Heq & Hst). injection Heq as <-.
      apply orb_false_iff in Hv as [H1 H2]. exfalso.
      destruct Hst as [Hst|Hst].
      * unfold ok in H1. apply andb_false_iff in H1 as [H1|H1];
          apply Z.leb_gt in H1; lia.
      * apply Z.eqb_neq in H2. contradiction.
  - eexists _, _. repeat split; try reflexivity; try discriminate.
    intros (response' & Heq & _). discriminate.
Qed.

Example testConnectivity_method_not_allowed :
  (testConnectivity "/api/management"
     (SampleClient.always (SampleClient.answer 405 "Method Not Allowed" ""))
     SampleClient.fresh).1
  = Returns (true, "API server is reachable").
Proof. reflexivity. Qed.

Example testConnectivity_unavailable :
  (testConnectivity "/api/management"
     (SampleClient.always (SampleClient.answer 503 "Service Unavailable" ""))
     SampleClient.fresh).1
  = Returns (false, "Server responded with 503: Service Unavailable").
Proof. reflexivity. Qed.

Example testConnectivity_offline :
  (testConnectivity "/api/management" SampleClient.offline SampleClient.fresh).1
  = Returns (false, "Failed to fetch").
Proof. reflexivity. Qed.

(** One call of [makeAuthenticatedRequest] whose request is answered with
    a status other than 401. *)
Lemma request_answered BASE_URL net endpoint options calls w token response :
  accessToken (session w) = Some token ->
  truthy token = true ->
  net (length (sent w)) = Resolves response ->
  res_status response <> 401%Z ->
  makeAuthenticatedRequest (S calls) BASE_URL net endpoint options w
  = (Returns response,
     {| session := session w;
        sent := (sent w ++
                 [{| init_url := String.append BASE_URL endpoint;
                     init_method := opt_method options;
                     init_headers :=
                       opt_headers options ∪
                       {["Authorization" := String.append "Bearer " token;
                         "Accept" := "application/json";
                         "Content-Type" := "application/json"]};
                     init_body := opt_body options |}])%list;
        logout_pending := logout_pending w |}).
Proof.
  intros Htok Htruthy Hnet Hst.
  cbn [makeAuthenticatedRequest]. async_unfold. async_step.
  rewrite Htok, Htruthy. async_step. rewrite Hnet. async_step.
  apply Z.eqb_neq in Hst. rewrite Hst. reflexivity.
Qed.

(** X11: a request that the controller answers with any status other
    than 401 (a 403 or a 500 as well as a 200) is handed back to the caller
    as it is, nothing is thrown and the session is not touched.  Exactly one
    request is sent: to [BASE_URL] followed by the endpoint, with the
    caller's method and body; its headers are the caller's, and
    [Authorization: Bearer <token>], [Accept] and [Content-Type:
    application/json] stand in where the caller gave none. *)
Theorem request_passes_through
    (BASE_URL : string) (net : script) (endpoint : string)
    (options : RequestInit) (calls : nat) (w : world)
    (token : string) (response : Response) :
  accessToken (session w) = Some token ->
  truthy token = true ->
  net (length (sent w)) = Resolves response ->
  res_status response <> 401%Z ->
  (makeAuthenticatedRequest (S calls) BASE_URL net endpoint options w).1
  = Returns response /\
  session (makeAuthenticatedRequest (S calls) BASE_URL net endpoint options w).2
  = session w /\
  exists init : fetch_init,
    sent (makeAuthenticatedRequest (S calls) BASE_URL net endpoint options w).2
    = (sent w ++ [init])%list /\
    init_url init = String.append BASE_URL endpoint /\
    init_method init = opt_method options /\
    init_body init = opt_body options /\
    (forall name value,
        opt_headers options !! name = Some value ->
        init_headers init !! name = Some value) /\
    (opt_headers options !! "Authorization" = None ->
     init_headers init !! "Authorization" = Some (String.append "Bearer " token)) /\
    (opt_headers options !! "Accept" = None ->
     init_headers init !! "Accept" = Some "application/json") /\
    (opt_headers options !! "Content-Type" = None ->
     init_headers init !! "Content-Type" = Some "application/json").
Proof.
  intros Htok Htruthy Hnet Hst.
  rewrite (request_answered _ _ _ _ _ _ _ _ Htok Htruthy Hnet Hst).
  cbn [fst snd session sent]. split; [reflexivity|]. split; [reflexivity|].
  eexists. split; [reflexivity|]. cbn [init_url init_method init_body init_headers].
  repeat split.
  - intros name value H. apply lookup_union_Some_l, H.
  - intros H. rewrite lookup_union_r by exact H. apply lookup_insert_eq.
  - intros H. rewrite lookup_union_r by exact H.
    rewrite lookup_insert_ne by discriminate. apply lookup_insert_eq.
  - intros H. rewrite lookup_union_r by exact H.
    rewrite !lookup_insert_ne by discriminate. apply lookup_singleton_eq.
Qed.

Lemma request_passes_through_forbidden :
  (makeAuthenticatedRequest 1 "/api/management"
     (SampleClient.always (SampleClient.answer 403 "Forbidden" "{}"))
     "/v1/aps" {| opt_method := None; opt_headers := ∅; opt_body := NoBody |}
     SampleClient.logged_in).1
  = Returns (SampleClient.answer 403 "Forbidden" "{}") /\
  session (makeAuthenticatedRequest 1 "/api/management"
             (SampleClient.always (SampleClient.answer 403 "Forbidden" "{}"))
             "/v1/aps" {| opt_method := None; opt_headers := ∅; opt_body := NoBody |}
             SampleClient.logged_in).2
  = session SampleClient.logged_in /\
  exists init : fetch_init,
    sent (makeAuthenticatedRequest 1 "/api/management"
            (SampleClient.always (SampleClient.answer 403 "Forbidden" "{}"))
            "/v1/aps" {| opt_method := None; opt_headers := ∅; opt_body := NoBody |}
            SampleClient.logged_in).2
    = (sent SampleClient.logged_in ++ [init])%list /\
    init_url init = String.append "/api/management" "/v1/aps" /\
    init_method init = None /\
    init_body init = NoBody /\
    (forall name value,
        (∅ : gmap string string) !! name = Some value ->
        init_headers init !! name = Some value) /\
    ((∅ : gmap string string) !! "Authorization" = None ->
     init_headers init !! "Authorization" = Some (String.append "Bearer " "tok")) /\
    ((∅ : gmap string string) !! "Accept" = None ->
     init_headers init !! "Accept" = Some "application/json") /\
    ((∅ : gmap string string) !! "Content-Type" = None ->
     init_headers init !! "Content-Type" = Some "application/json").
Proof.
  refine (request_passes_through "/api/management"
            (SampleClient.always (SampleClient.answer 403 "Forbidden" "{}"))
            "/v1/aps" {| opt_method := None; opt_headers := ∅; opt_body := NoBody |}
            0 SampleClient.logged_in "tok"
            (SampleClient.answer 403 "Forbidden" "{}") eq_refl eq_refl eq_refl _).
  discriminate.
Defined.

Lemma cleared_is_logout BASE_URL net0 s :
  cleared s = (ApiService.logout BASE_URL net0 s).2.
Proof. rewrite logout_runs. reflexivity. Qed.

(** X12: when the controller answers 401 and the service holds no refresh
    token, the call throws [Authentication required] and starts a [logout()]
    it does not wait for: the revocation request is sent, and the call itself
    leaves the tokens in place.  They go when that [logout()] finishes, and
    the session is then the one [logout] leaves. *)
Theorem unauthorized_without_refresh
    (BASE_URL : string) (net : script) (endpoint : string)
    (options : RequestInit) (calls : nat) (w : world)
    (token : string) (response : Response) :
  accessToken (session w) = Some token ->
  truthy token = true ->
  truthy_opt (refreshToken (session w)) = false ->
  net (length (sent w)) = Resolves response ->
  res_status response = 401%Z ->
  let w' := (makeAuthenticatedRequest (S calls) BASE_URL net endpoint options w).2 in
  (makeAuthenticatedRequest (S calls) BASE_URL net endpoint options w).1
  = Throws (Error "Authentication required") /\
  session w' = session w /\
  isAuthenticated (session w') = true /\
  logout_pending w' = true /\
  (exists first,
      sent w' =
        (sent w ++
         [first;
          {| init_url := String.append BASE_URL
                           (String.append "/v1/oauth2/token/" token);
             init_method := Some "DELETE";
             init_headers := {["Authorization" := String.append "Bearer " token;
                               "Accept" := "application/json"]};
             init_body := NoBody |}])%list) /\
  isAuthenticated (session (settle w')) = false /\
  forall net0, session (settle w') = (ApiService.logout BASE_URL net0 (session w)).2.
Proof.
  intros Htok Htruthy Hrefresh Hnet Hst w'. subst w'.
  cbn [makeAuthenticatedRequest]. async_unfold. async_step.
  rewrite Htok, Htruthy. async_step. rewrite Hnet. async_step.
  rewrite Hst. async_step. change (401 =? 401)%Z with true. async_step.
  rewrite Hrefresh. async_step.
  unfold logout_unawaited. async_step. rewrite Htok, Htruthy. async_step.
  change (String.eqb (error_name (Error "Authentication required")) "AbortError")
    with false.
  cbn [fst snd session sent logout_pending settle].
  repeat split.
  - unfold isAuthenticated. rewrite Htok. exact Htruthy.
  - eexists. rewrite <- app_assoc. reflexivity.
  - intros net0. apply cleared_is_logout.
Qed.

Lemma unauthorized_without_refresh_sample :
  let w' := (makeAuthenticatedRequest 1 "/api/management"
               (SampleClient.always (SampleClient.answer 401 "Unauthorized" ""))
               "/v1/aps" {| opt_method := None; opt_headers := ∅; opt_body := NoBody |}
               SampleClient.without_refresh).2 in
  (makeAuthenticatedRequest 1 "/api/management"
     (SampleClient.always (SampleClient.answer 401 "Unauthorized" ""))
     "/v1/aps" {| opt_method := None; opt_headers := ∅; opt_body := NoBody |}
     SampleClient.without_refresh).1
  = Throws (Error "Authentication required") /\
  session w' = session SampleClient.without_refresh /\
  isAuthenticated (session w') = true /\
  logout_pending w' = true /\
  (exists first,
      sent w' =
        (sent SampleClient.without_refresh ++
         [first;
          {| init_url := String.append "/api/management"
                           (String.append "/v1/oauth2/token/" "tok");
             init_method := Some "DELETE";
             init_headers := {["Authorization" := String.append "Bearer " "tok";
                               "Accept" := "application/json"]};
             init_body := NoBody |}])%list) /\
  isAuthenticated (session (settle w')) = false /\
  forall net0,
    session (settle w')
    = (ApiService.logout "/api/management" net0
         (session SampleClient.without_refresh)).2.
Proof.
  exact (unauthorized_without_refresh "/api/management"
           (SampleClient.always (SampleClient.answer 401 "Unauthorized" ""))
           "/v1/aps" {| opt_method := None; opt_headers := ∅; opt_body := NoBody |}
           0 SampleClient.without_refresh "tok"
           (SampleClient.answer 401 "Unauthorized" "")
           eq_refl eq_refl eq_refl eq_refl eq_refl).
Defined.

(** X13: when the controller answers 401 and the refresh it is then asked
    for fails (the network fails, or the answer is not ok), the call throws
    [Session expired. Please login again.] and starts a [logout()] it does
    not wait for; the session is cleared once that [logout()] finishes. *)
Theorem unauthorized_refresh_fails
    (BASE_URL : string) (net : script) (endpoint : string)
    (options : RequestInit) (calls : nat) (w : world)
    (token : string) (response : Response) :
  accessToken (session w) = Some token ->
  truthy token = true ->
  truthy_opt (refreshToken (session w)) = true ->
  net (length (sent w)) = Resolves response ->
  res_status response = 401%Z ->
  match net (S (length (sent w))) with
  | Resolves refused => ok refused = false
  | Rejects _ => True
  end ->
  let w' := (makeAuthenticatedRequest (S calls) BASE_URL net endpoint options w).2 in
  (makeAuthenticatedRequest (S calls) BASE_URL net endpoint options w).1
  = Throws (Error "Session expired. Please login again.") /\
  session w' = session w /\
  logout_pending w' = true /\
  isAuthenticated (session (settle w')) = false /\
  forall net0, session (settle w') = (ApiService.logout BASE_URL net0 (session w)).2.
Proof.
  intros Htok Htruthy Hrefresh Hnet Hst Hfail w'. subst w'.
  destruct (refreshToken (session w)) as [rt|] eqn:Hrt; [|discriminate].
  cbn [truthy_opt] in Hrefresh.
  cbn [makeAuthenticatedRequest]. async_unfold. async_step.
  rewrite Htok, Htruthy. async_step. rewrite Hnet. async_step.
  rewrite Hst. change (401 =? 401)%Z with true. async_step.
  rewrite Hrt. cbn [truthy_opt]. rewrite Hrefresh. async_step.
  unfold refreshAccessToken. async_unfold. async_step.
  rewrite Hrt, Hrefresh. async_step.
  rewrite length_app. cbn [length]. rewrite Nat.add_1_r.
  destruct (net (S (length (sent w)))) as [refused|err]; async_step.
  - rewrite Hfail. async_step.
    change (String.eqb (error_name (Error "Token refresh failed")) "AbortError")
      with false.
    async_step. unfold logout_unawaited. async_step.
    rewrite Htok, Htruthy. async_step.
    change (String.eqb
              (error_name (Error "Session expired. Please login again."))
              "AbortError") with false.
    cbn [fst snd session sent logout_pending settle].
    repeat split. intros net0. apply cleared_is_logout.
  - destruct (String.eqb (error_name err) "AbortError"); async_step;
      unfold logout_unawaited; async_step;
      rewrite Htok, Htruthy; async_step;
      change (String.eqb
                (error_name (Error "Session expired. Please login again."))
                "AbortError") with false;
      cbn [fst snd session sent logout_pending settle];
      repeat split; intros net0; apply cleared_is_logout.
Qed.

Lemma unauthorized_refresh_fails_sample :
  let w' := (makeAuthenticatedRequest 2 "/api/management"
               (SampleClient.always (SampleClient.answer 401 "Unauthorized" ""))
               "/v1/aps" {| opt_method := None; opt_headers := ∅; opt_body := NoBody |}
               SampleClient.logged_in).2 in
  (makeAuthenticatedRequest 2 "/api/management"
     (SampleClient.always (SampleClient.answer 401 "Unauthorized" ""))
     "/v1/aps" {| opt_method := None; opt_headers := ∅; opt_body := NoBody |}
     SampleClient.logged_in).1
  = Throws (Error "Session expired. Please login again.") /\
  session w' = session SampleClient.logged_in /\
  logout_pending w' = true /\
  isAuthenticated (session (settle w')) = false /\
  forall net0,
    session (settle w')
    = (ApiService.logout "/api/management" net0 (session SampleClient.logged_in)).2.
Proof.
  exact (unauthorized_refresh_fails "/api/management"
           (SampleClient.always (SampleClient.answer 401 "Unauthorized" ""))
           "/v1/aps" {| opt_method := None; opt_headers := ∅; opt_body := NoBody |}
           1 SampleClient.logged_in "tok"
           (SampleClient.answer 401 "Unauthorized" "")
           eq_refl eq_refl eq_refl eq_refl eq_refl eq_refl).
Defined.

(** X14: when the controller answers 401, the refresh is granted and the
    request is then answered, the caller gets that second answer and never
    sees the 401.  Three requests go out: the request, the refresh carrying
    the old refresh token, and the request again, now (unless the caller set
    its own [Authorization] header) with the new access token; the session
    holds the new tokens. *)
Theorem unauthorized_then_refreshed
    (BASE_URL : string) (net : script) (endpoint : string)
    (options : RequestInit) (calls : nat) (w : world)
    (token old_refresh : string) (refused granting answer : Response)
    (a : AuthResponse) :
  accessToken (session w) = Some token ->
  truthy token = true ->
  refreshToken (session w) = Some old_refresh ->
  truthy old_refresh = true ->
  net (length (sent w)) = Resolves refused ->
  res_status refused = 401%Z ->
  net (S (length (sent w))) = Resolves granting ->
  ok granting = true ->
  res_json granting = Read a ->
  truthy (access_token a) = true ->
  net (S (S (length (sent w)))) = Resolves answer ->
  res_status answer <> 401%Z ->
  opt_headers options !! "Authorization" = None ->
  let w' :=
    (makeAuthenticatedRequest (S (S calls)) BASE_URL net endpoint options w).2 in
  (makeAuthenticatedRequest (S (S calls)) BASE_URL net endpoint options w).1
  = Returns answer /\
  accessToken (session w') = Some (access_token a) /\
  refreshToken (session w') = Some (refresh_token a) /\
  logout_pending w' = logout_pending w /\
  exists first refresh retry : fetch_init,
    sent w' = (sent w ++ [first; refresh; retry])%list /\
    init_headers first !! "Authorization" = Some (String.append "Bearer " token) /\
    init_url refresh = String.append BASE_URL "/v1/oauth2/refreshToken" /\
    init_body refresh
    = Stringified (JObject [("refresh_token", JString old_refresh)]) /\
    init_url retry = String.append BASE_URL endpoint /\
    init_headers retry !! "Authorization"
    = Some (String.append "Bearer " (access_token a)).
Proof.
  intros Htok Htruthy Hrt Hrtt H1 Hst1 H2 Hok Hjson Hnew H3 Hst3 Hauth w'.
  subst w'.
  assert (Hfirst :
    makeAuthenticatedRequest (S (S calls)) BASE_URL net endpoint options w
    = makeAuthenticatedRequest (S calls) BASE_URL net endpoint options
        {| session :=
             setItem "refresh_token" (refresh_token a)
               (setItem "access_token" (access_token a)
                  (set_refreshToken (Some (refresh_token a))
                     (set_accessToken (Some (access_token a)) (session w))));
           sent :=
             ((sent w ++
               [{| init_url := String.append BASE_URL endpoint;
                   init_method := opt_method options;
                   init_headers :=
                     opt_headers options ∪
                     {["Authorization" := String.append "Bearer " token;
                       "Accept" := "application/json";
                       "Content-Type" := "application/json"]};
                   init_body := opt_body options |}]) ++
              [{| init_url := String.append BASE_URL "/v1/oauth2/refreshToken";
                  init_method := Some "POST";
                  init_headers := {["Content-Type" := "application/json";
                                    "Accept" := "application/json"]};
                  init_body :=
                    Stringified (JObject [("refresh_token", JString old_refresh)]) |}])%list;
           logout_pending := logout_pending w |}).
  { cbn [makeAuthenticatedRequest]. async_unfold. async_step.
    rewrite Htok, Htruthy. async_step. rewrite H1. async_step.
    rewrite Hst1. change (401 =? 401)%Z with true. async_step.
    rewrite Hrt. cbn [truthy_opt]. rewrite Hrtt. async_step.
    unfold refreshAccessToken. async_unfold. async_step.
    rewrite Hrt, Hrtt. async_step.
    rewrite length_app. cbn [length]. rewrite Nat.add_1_r.
    rewrite H2. async_step. rewrite Hok. async_step.
    rewrite Hjson. async_step. reflexivity. }
  rewrite Hfirst.
  erewrite request_answered; cycle 1.
  - reflexivity.
  - exact Hnew.
  - cbn [sent]. rewrite !length_app. cbn [length]. rewrite !Nat.add_1_r. exact H3.
  - exact Hst3.
  - cbn [fst snd session sent logout_pending accessToken refreshToken
           setItem set_refreshToken set_accessToken].
    repeat split.
    eexists _, _, _. split.
    { rewrite <- !app_assoc. reflexivity. }
    cbn [init_headers init_url init_body]. repeat split.
    + rewrite lookup_union_r by exact Hauth. apply lookup_insert_eq.
    + rewrite lookup_union_r by exact Hauth. apply lookup_insert_eq.
Qed.

Lemma unauthorized_then_refreshed_sample :
  let w' :=
    (makeAuthenticatedRequest 2 "/api/management" SampleClient.expired_then_renewed
       "/v1/aps" {| opt_method := None; opt_headers := ∅; opt_body := NoBody |}
       SampleClient.logged_in).2 in
  (makeAuthenticatedRequest 2 "/api/management" SampleClient.expired_then_renewed
     "/v1/aps" {| opt_method := None; opt_headers := ∅; opt_body := NoBody |}
     SampleClient.logged_in).1
  = Returns (SampleClient.answer 200 "OK" "[]") /\
  accessToken (session w') = Some (access_token SampleClient.granted) /\
  refreshToken (session w') = Some (refresh_token SampleClient.granted) /\
  logout_pending w' = logout_pending SampleClient.logged_in /\
  exists first refresh retry : fetch_init,
    sent w' = (sent SampleClient.logged_in ++ [first; refresh; retry])%list /\
    init_headers first !! "Authorization" = Some (String.append "Bearer " "tok") /\
    init_url refresh = String.append "/api/management" "/v1/oauth2/refreshToken" /\
    init_body refresh
    = Stringified (JObject [("refresh_token", JString "ref")]) /\
    init_url retry = String.append "/api/management" "/v1/aps" /\
    init_headers retry !! "Authorization"
    = Some (String.append "Bearer " (access_token SampleClient.granted)).
Proof.
  refine (unauthorized_then_refreshed "/api/management"
            SampleClient.expired_then_renewed "/v1/aps"
            {| opt_method := None; opt_headers := ∅; opt_body := NoBody |}
            0 SampleClient.logged_in "tok" "ref"
            (SampleClient.answer 401 "Unauthorized" "") SampleClient.grant
            (SampleClient.answer 200 "OK" "[]") SampleClient.granted
            eq_refl eq_refl eq_refl eq_refl eq_refl eq_refl eq_refl eq_refl
            eq_refl eq_refl eq_refl _ eq_refl).
  discriminate.
Defined.











(** A 2xx answer without the properties of a grant: [login] stores what it
    finds, the tokens in memory and in [localStorage] part ways, and the
    service, not authenticated now, is authenticated after a reload. *)
Example grant_without_tokens :
  let run := login "/api/management" SampleClient.no_detail
               (SampleClient.always (SampleClient.answer 200 "OK" "{}"))
               "admin" "secret" SampleClient.fresh in
  run.1 = Untyped /\
  accessToken (session run.2) = None /\
  localStorage (session run.2) !! "access_token" = Some "undefined" /\
  ~ in_step (session run.2) /\
  isAuthenticated (session run.2) = false /\
  isAuthenticated (constructor (localStorage (session run.2))) = true.
Proof.
  repeat split. intros [H _]. discriminate H.
Qed.

(** The same answer to a refresh: the request is tried again without an
    access token. *)
Example refresh_without_tokens :
  (makeAuthenticatedRequest 2 "/api/management"
     (fun n => match n with
               | O => Resolves (SampleClient.answer 401 "Unauthorized" "")
               | _ => Resolves (SampleClient.answer 200 "OK" "{}")
               end)
     "/v1/aps" {| opt_method := None; opt_headers := ∅; opt_body := NoBody |}
     SampleClient.logged_in).1
  = Throws (Error "No access token available").
Proof. reflexivity. Qed.

End Client.
